(** * YT-DLP Made Easy: a model of [main.py]

    The program is a one-file GUI front-end that builds command lines for
    the downloader executable, runs each of them in a worker thread
    ([_run_yt_dlp]), forwards the child's output to a queue and to the
    activity log, and drains the queue into a text box on a timer
    ([pump_queue]).

    The embedding is shallow.  Python strings are [string]s (code points
    below 256), lists are [list]s, [None]-or-value is [option].  Code that
    mutates globals and can raise is written in a small state-and-exception
    monad whose state survives a raise, as Python's does; every call that
    leaves the program (the file system, [subprocess], the notification
    service, the message box) is answered by an explicit environment
    record, so that a theorem quantified over environments speaks about
    every behaviour of the outside world the model can express.

    Each function is run on its own, as one sequential call: the
    interleaving of several worker threads is not modelled. *)

From Stdlib Require Import String Ascii List Bool Arith Lia.
Import ListNotations.

Local Open Scope string_scope.
Local Open Scope list_scope.

(* ===================================================================== *)
(** * Python string operations used by the program *)
(* ===================================================================== *)

Module PyStr.

(** The line feed, and [s + "\n"]. *)
Definition LF : ascii := "010"%char.
Definition CR : ascii := "013"%char.
Definition nl : string := String LF EmptyString.

(** [str.isspace] on one character, for the code points below 256:
    TAB, LF, VT, FF, CR, FS, GS, RS, US, SPACE, NEL (0x85), NBSP (0xa0). *)
Definition isspace (c : ascii) : bool :=
  let n := nat_of_ascii c in
  (((9 <=? n) && (n <=? 13)) || ((28 <=? n) && (n <=? 32))
   || (n =? 133) || (n =? 160))%nat.

(** The line boundaries of [str.splitlines], below 256:
    LF, VT, FF, CR, FS, GS, RS, NEL.  (CR LF is handled by [splitlines].) *)
Definition is_linebreak (c : ascii) : bool :=
  let n := nat_of_ascii c in
  (((10 <=? n) && (n <=? 13)) || ((28 <=? n) && (n <=? 30))
   || (n =? 133))%nat.

(** [not s] for a string: the empty string is the only falsy one. *)
Definition is_empty (s : string) : bool :=
  match s with EmptyString => true | String _ _ => false end.

Definition truthy (s : string) : bool := negb (is_empty s).

(** [s.lstrip()] *)
Fixpoint lstrip (s : string) : string :=
  match s with
  | EmptyString => EmptyString
  | String c s' => if isspace c then lstrip s' else s
  end.

(** [s.rstrip()] *)
Fixpoint rstrip (s : string) : string :=
  match s with
  | EmptyString => EmptyString
  | String c s' =>
      let r := rstrip s' in
      if is_empty r && isspace c then EmptyString else String c r
  end.

(** [s.strip()] *)
Definition strip (s : string) : string := rstrip (lstrip s).

(** [s.rstrip(chars)] for a one-character [chars]. *)
Fixpoint rstrip_char (x : ascii) (s : string) : string :=
  match s with
  | EmptyString => EmptyString
  | String c s' =>
      let r := rstrip_char x s' in
      if is_empty r && Ascii.eqb c x then EmptyString else String c r
  end.

(** [s.splitlines()].  [cur] is the line being read, [after_cr] tells
    that the previous character was a CR, whose LF, if it follows, belongs
    to the same boundary.  A last line is produced only when characters
    follow the last boundary. *)
Fixpoint splitlines_from (cur : string) (after_cr : bool) (s : string)
  : list string :=
  match s with
  | EmptyString => if is_empty cur then [] else [cur]
  | String c s' =>
      if after_cr && Ascii.eqb c LF then splitlines_from EmptyString false s'
      else if is_linebreak c
           then cur :: splitlines_from EmptyString (Ascii.eqb c CR) s'
           else splitlines_from (cur ++ String c EmptyString)%string false s'
  end.

Definition splitlines (s : string) : list string :=
  splitlines_from EmptyString false s.

(** [ "".join(parts) ] *)
Definition join (parts : list string) : string :=
  fold_right String.append EmptyString parts.

(** [s.startswith(p)] *)
Definition startswith (p s : string) : bool := String.prefix p s.

(** A text without white space: what a URL typed on one line is. *)
Fixpoint no_space (s : string) : bool :=
  match s with
  | EmptyString => true
  | String c s' => negb (isspace c) && no_space s'
  end.

(** A text made of white space only. *)
Fixpoint all_space (s : string) : bool :=
  match s with
  | EmptyString => true
  | String c s' => isspace c && all_space s'
  end.

(** A URL as it stands on a line of the input: not empty, no white space. *)
Definition is_url (s : string) : bool := truthy s && no_space s.

(** [s[:n]] and [s[n:]] *)
Fixpoint string_take (n : nat) (s : string) : string :=
  match n, s with
  | S n', String c s' => String c (string_take n' s')
  | _, _ => EmptyString
  end.

Fixpoint string_drop (n : nat) (s : string) : string :=
  match n, s with
  | S n', String _ s' => string_drop n' s'
  | _, _ => s
  end.

(** A text that holds no line boundary. *)
Fixpoint no_linebreak (s : string) : bool :=
  match s with
  | EmptyString => true
  | String c s' => negb (is_linebreak c) && no_linebreak s'
  end.

(** A text made of the decimal digits [0] to [9] only. *)
Definition is_digit (c : ascii) : bool :=
  let n := nat_of_ascii c in ((48 <=? n) && (n <=? 57))%nat.

Fixpoint all_digits (s : string) : bool :=
  match s with
  | EmptyString => true
  | String c s' => is_digit c && all_digits s'
  end.

End PyStr.

(* ===================================================================== *)
(** * Exceptions, and the state-and-exception monad *)
(* ===================================================================== *)

(** An instance of (a subclass of) Python's [Exception]; [exc_str e] is
    [str(e)].  The calls modelled here raise [OSError], [ValueError],
    [UnicodeDecodeError] and the like, all of them [Exception]s. *)
Record exn := Exc { exc_str : string }.

Inductive outcome (A : Type) : Type :=
| Returns (a : A)
| Raises (e : exn).
Arguments Returns {A} a.
Arguments Raises {A} e.

Module Eff.
Section Monad.
(** The mutable state. *)
Variable W : Type.

(** A computation: from a state to an outcome and the state it leaves.
    The state reached when an exception is raised is kept. *)
Definition M (A : Type) : Type := W -> outcome A * W.

Definition ret {A} (a : A) : M A := fun w => (Returns a, w).

Definition raise {A} (e : exn) : M A := fun w => (Raises e, w).

Definition bind {A B} (m : M A) (k : A -> M B) : M B :=
  fun w =>
    match m w with
    | (Returns a, w') => k a w'
    | (Raises e, w') => (Raises e, w')
    end.

(** [try: m except Exception as e: h e] *)
Definition try_except {A} (m : M A) (h : exn -> M A) : M A :=
  fun w =>
    match m w with
    | (Returns a, w') => (Returns a, w')
    | (Raises e, w') => h e w'
    end.

(** [try: m finally: f].  The outcome of [m] is kept unless [f] itself
    raises. *)
Definition try_finally {A} (m : M A) (f : M unit) : M A :=
  fun w =>
    match m w with
    | (r, w') =>
        match f w' with
        | (Returns _, w'') => (r, w'')
        | (Raises e, w'') => (Raises e, w'')
        end
    end.

(** [try: m except Exception: pass] *)
Definition swallow (m : M unit) : M unit :=
  try_except m (fun _ => ret tt).

Definition modify (f : W -> W) : M unit := fun w => (Returns tt, f w).
End Monad.

Arguments ret {W A} a.
Arguments raise {W A} e.
Arguments bind {W A B} m k.
Arguments try_except {W A} m h.
Arguments try_finally {W A} m f.
Arguments swallow {W} m.
Arguments modify {W} f.
End Eff.

Declare Scope eff_scope.
Delimit Scope eff_scope with eff.
Notation "x <- m ;; k" := (Eff.bind m (fun x => k))
  (at level 61, m at next level, right associativity) : eff_scope.
Notation "m ;; k" := (Eff.bind m (fun _ => k))
  (at level 61, right associativity) : eff_scope.

(* ===================================================================== *)
(** * The job runner: [_run_yt_dlp] *)
(* ===================================================================== *)

Module Runner.
Import PyStr Eff.
Local Open Scope eff_scope.

(** What [subprocess.Popen(args, stdout=PIPE, stderr=STDOUT, text=True)]
    returns: a child whose merged output, read through the text stream
    [stdout], is a sequence of lines followed either by the end of the
    stream or by an exception raised by the read; [wait] may raise. *)
Record child := {
  pid : nat;
  stdout_lines : list string;
  stdout_error : option exn;
  wait_error : option exn
}.

(** What the outside world does during one call of the runner. *)
Record os_env := {
  (** [open(log_file, "a", encoding="utf-8")] raises *)
  open_log_error : option exn;
  (** the [i]-th [lg.write] of the call raises *)
  log_write_error : nat -> option exn;
  (** closing the log on leaving the [with] block raises *)
  log_close_error : option exn;
  (** the file is buffered: when a write or the close raises, only the
      first [log_cut] characters of the text handed to [lg.write] since
      the file was opened have reached the disk *)
  log_cut : nat;
  (** [subprocess.Popen(args, ...)] raises or returns a child *)
  popen : list string -> exn + child;
  (** [subprocess.Popen(post_hook, shell=True)] raises *)
  popen_shell_error : string -> option exn;
  (** [notification.notify(title=..., message=...)] raises *)
  notify_error : string -> string -> option exn
}.

(** The globals and files the runner touches. *)
Record world := {
  q : list string;                       (** the Line Queue, oldest first *)
  log_text : string;                     (** text of [activity.log] *)
  current_process : option child;
  hooks_started : list string;           (** shell commands launched *)
  notify_calls : list (string * string); (** every [notify(title, message)] *)
  notified : list (string * string)      (** those that were delivered *)
}.

Definition set_q (f : list string -> list string) (w : world) : world :=
  {| q := f (q w); log_text := log_text w;
     current_process := current_process w;
     hooks_started := hooks_started w;
     notify_calls := notify_calls w; notified := notified w |}.

Definition set_log_text (f : string -> string) (w : world) : world :=
  {| q := q w; log_text := f (log_text w);
     current_process := current_process w;
     hooks_started := hooks_started w;
     notify_calls := notify_calls w; notified := notified w |}.

Definition set_current_process (p : option child) (w : world) : world :=
  {| q := q w; log_text := log_text w;
     current_process := p;
     hooks_started := hooks_started w;
     notify_calls := notify_calls w; notified := notified w |}.

Definition set_hooks_started (f : list string -> list string) (w : world)
  : world :=
  {| q := q w; log_text := log_text w;
     current_process := current_process w;
     hooks_started := f (hooks_started w);
     notify_calls := notify_calls w; notified := notified w |}.

Definition set_notify_calls (f : list (string * string)
                                 -> list (string * string)) (w : world)
  : world :=
  {| q := q w; log_text := log_text w;
     current_process := current_process w;
     hooks_started := hooks_started w;
     notify_calls := f (notify_calls w); notified := notified w |}.

Definition set_notified (f : list (string * string)
                             -> list (string * string)) (w : world)
  : world :=
  {| q := q w; log_text := log_text w;
     current_process := current_process w;
     hooks_started := hooks_started w;
     notify_calls := notify_calls w; notified := f (notified w) |}.

(** [_ = gettext.gettext]: the program installs no catalogue (the i18n
    is a stub), so a message is returned as it is. *)
Definition gettext_ (s : string) : string := s.

Section Run.
Variable env : os_env.

Abbreviation M := (Eff.M world).

(** [q.put(line)]: the queue is unbounded, the call does not fail. *)
Definition q_put (line : string) : M unit :=
  modify (set_q (fun l => l ++ [line])).

(** What is on the disk after a failed write or close: the text [base]
    the file held when it was opened, and the first [log_cut] characters
    of what was handed to the file since, of which [t] is the whole. *)
Definition cut_log (base t : string) : string :=
  (base ++ string_take (log_cut env)
             (string_drop (String.length base) t))%string.

(** [with open(log_file, "a", encoding="utf-8") as lg: body].  The
    handle [lg] is the text the file held when it was opened.  Leaving
    the block closes the file, also when [body] raised; an exception
    raised by the close replaces the outcome of [body], and the text
    still in the buffer may be lost. *)
Definition with_open_log {A} (body : string -> M A) : M A :=
  fun w =>
    match open_log_error env with
    | Some e => (Raises e, w)
    | None =>
        let lg := log_text w in
        match body lg w with
        | (r, w') =>
            match log_close_error env with
            | Some e =>
                (Raises e, set_log_text (fun t => cut_log lg t) w')
            | None => (r, w')
            end
        end
    end.

(** [lg.write(line)], the [i]-th write of the call.  The line goes to
    the buffer of the file; when the write raises, a part only of the
    buffered text may have reached the disk. *)
Definition lg_write (lg : string) (i : nat) (line : string) : M unit :=
  match log_write_error env i with
  | Some e =>
      modify (set_log_text (fun t => cut_log lg (t ++ line))) ;;
      raise e
  | None => modify (set_log_text (fun t => (t ++ line)%string))
  end.

(** [subprocess.Popen(args, stdout=PIPE, stderr=STDOUT, text=True)] *)
Definition Popen (args : list string) : M child :=
  match popen env args with
  | inl e => raise e
  | inr c => ret c
  end.

(** [for line in stdout: body], the lines counted from [i]. *)
Fixpoint for_line_in (i : nat) (lines : list string)
         (stdout_end : option exn) (body : nat -> string -> M unit)
  : M unit :=
  match lines with
  | [] => match stdout_end with
          | Some e => raise e
          | None => ret tt
          end
  | line :: rest =>
      body i line ;; for_line_in (S i) rest stdout_end body
  end.

(** [current_process.wait()] *)
Definition wait (c : child) : M unit :=
  match wait_error c with
  | Some e => raise e
  | None => ret tt
  end.

(** [subprocess.Popen(post_hook, shell=True)] *)
Definition Popen_shell (cmd : string) : M unit :=
  match popen_shell_error env cmd with
  | Some e => raise e
  | None => modify (set_hooks_started (fun l => l ++ [cmd]))
  end.

(** [notification.notify(title=title, message=message)] *)
Definition notify (title message : string) : M unit :=
  modify (set_notify_calls (fun l => l ++ [(title, message)])) ;;
  match notify_error env title message with
  | Some e => raise e
  | None => modify (set_notified (fun l => l ++ [(title, message)]))
  end.

(** [if post_hook:] holds for a string that is not empty. *)
Definition hook_given (post_hook : option string) : option string :=
  match post_hook with
  | Some cmd => if truthy cmd then Some cmd else None
  | None => None
  end.

(** [args[1] if len(args) > 1 else _("Finished")] *)
Definition notification_message (args : list string) : string :=
  match args with
  | _ :: a1 :: _ => a1
  | _ => gettext_ "Finished"
  end.

(** [f"[ERROR] {e}\n"] *)
Definition error_line (e : exn) : string :=
  ("[ERROR] " ++ exc_str e ++ nl)%string.

(** The body of the [for] loop: [q.put(line); lg.write(line)]. *)
Definition forward (lg : string) (i : nat) (line : string) : M unit :=
  q_put line ;; lg_write lg i line.

(** The body of the [try]. *)
Definition run_body (args : list string) : M unit :=
  with_open_log
    (fun lg =>
       c <- Popen args ;;
       modify (set_current_process (Some c)) ;;
       for_line_in 0 (stdout_lines c) (stdout_error c) (forward lg) ;;
       wait c).

(** The [finally] block. *)
Definition run_cleanup (args : list string) (post_hook : option string)
  : M unit :=
  modify (set_current_process None) ;;
  match hook_given post_hook with
  | Some cmd => swallow (Popen_shell cmd)
  | None => ret tt
  end ;;
  swallow (notify (gettext_ "Download Complete")
                  (notification_message args)).

Definition _run_yt_dlp (args : list string) (post_hook : option string)
  : M unit :=
  try_finally
    (try_except (run_body args) (fun e => q_put (error_line e)))
    (run_cleanup args post_hook).
End Run.

(** The child of the job writes [lines] and then exits: the spawn gives
    a child, the stream yields [lines] and ends, and [wait] returns. *)
Definition writes_then_exits (env : os_env) (args lines : list string)
  : Prop :=
  exists c, popen env args = inr c /\ stdout_lines c = lines
            /\ stdout_error c = None /\ wait_error c = None.

(** The activity log can be opened, written and closed. *)
Definition log_writable (env : os_env) : Prop :=
  open_log_error env = None /\ (forall i, log_write_error env i = None)
  /\ log_close_error env = None.

(** Spawning the child raises, or reading its output does. *)
Definition spawn_or_read_raises (env : os_env) (args : list string) : bool :=
  match popen env args with
  | inl _ => true
  | inr c => match stdout_error c with Some _ => true | None => false end
  end.

(** The lines of the child's output, none when there is no child. *)
Definition child_lines (env : os_env) (args : list string) : list string :=
  match popen env args with
  | inl _ => []
  | inr c => stdout_lines c
  end.

(** The same outside world with another notification service. *)
Definition with_notify_error (f : string -> string -> option exn)
           (env : os_env) : os_env :=
  {| open_log_error := open_log_error env;
     log_write_error := log_write_error env;
     log_close_error := log_close_error env;
     log_cut := log_cut env;
     popen := popen env;
     popen_shell_error := popen_shell_error env;
     notify_error := f |}.

(** The state without the record of the notifications delivered. *)
Definition forget_notified (w : world) : world :=
  set_notified (fun _ => []) w.

(** [w'] differs from [w] in the queue and the log at most. *)
Definition same_handles (w w' : world) : Prop :=
  current_process w' = current_process w
  /\ hooks_started w' = hooks_started w
  /\ notify_calls w' = notify_calls w
  /\ notified w' = notified w.

(** The shell commands one call of the runner launches: the post-hook,
    when one is given and the shell starts. *)
Definition hook_launched (env : os_env) (post_hook : option string)
  : list string :=
  match hook_given post_hook with
  | Some cmd =>
      match popen_shell_error env cmd with
      | None => [cmd]
      | Some _ => []
      end
  | None => []
  end.

(** The write of index [k] is the first one that raises, with [e]. *)
Definition first_write_failure (env : os_env) (k : nat) (e : exn) : Prop :=
  (forall j, j < k -> log_write_error env j = None)
  /\ log_write_error env k = Some e.

(** The same outside world with another answer to the spawn. *)
Definition with_popen (f : list string -> exn + child) (env : os_env)
  : os_env :=
  {| open_log_error := open_log_error env;
     log_write_error := log_write_error env;
     log_close_error := log_close_error env;
     log_cut := log_cut env;
     popen := f;
     popen_shell_error := popen_shell_error env;
     notify_error := notify_error env |}.

(** [logged] is the whole of [fwd], or misses its last element. *)
Definition lags (logged fwd : list string) : Prop :=
  fwd = logged \/ exists x, fwd = logged ++ [x].

(** The notifications one call of the runner delivers. *)
Definition delivered (env : os_env) (args : list string)
  : list (string * string) :=
  match notify_error env (gettext_ "Download Complete")
          (notification_message args) with
  | None => [(gettext_ "Download Complete", notification_message args)]
  | Some _ => []
  end.

End Runner.

(* ===================================================================== *)
(** * The UI pump: [pump_queue] *)
(* ===================================================================== *)

Module Pump.
Import PyStr.

(** The [state] option of a Tk text widget. *)
Inductive widget_state := normal | disabled.

(** [output_box]: its state, its text, and the length of text the view
    was last scrolled to show.  *)
Record textbox := {
  state : widget_state;
  text : string;
  view_end : nat
}.

(** [box.configure(state=s)] *)
Definition configure (s : widget_state) (b : textbox) : textbox :=
  {| state := s; text := text b; view_end := view_end b |}.

(** [box.insert("end", line)]: Tk ignores an insert into a disabled
    text widget. *)
Definition insert_end (line : string) (b : textbox) : textbox :=
  match state b with
  | normal =>
      {| state := normal; text := (text b ++ line)%string;
         view_end := view_end b |}
  | disabled => b
  end.

(** [box.see("end")] *)
Definition see_end (b : textbox) : textbox :=
  {| state := state b; text := text b; view_end := String.length (text b) |}.

(** The callbacks the program hands to [app.after]. *)
Inductive callback := cb_pump_queue | cb_poll_clipboard.

(** The part of the program state the pump touches: the Line Queue, the
    log view, the timers Tk holds (delay in ms and callback, with the
    identifier [after] returned for each), and the global [pump_id]. *)
Record world := {
  q : list string;
  output_box : textbox;
  timers : list (nat * (nat * callback));
  next_after_id : nat;
  pump_id : option nat
}.

(** One turn of the [while] body, for the line [q.get()] returned. *)
Definition show_line (line : string) (b : textbox) : textbox :=
  configure disabled (see_end (insert_end line (configure normal b))).

(** [while not q.empty(): line = q.get(); ...] with no producer running
    meanwhile: one turn for each queued line, oldest first. *)
Fixpoint drain (pending : list string) (b : textbox) : textbox :=
  match pending with
  | [] => b
  | line :: rest => drain rest (show_line line b)
  end.

(** [app.after(ms, cb)]: registers the timer and returns its identifier. *)
Definition after (ms : nat) (cb : callback) (w : world) : nat * world :=
  (next_after_id w,
   {| q := q w; output_box := output_box w;
      timers := timers w ++ [(next_after_id w, (ms, cb))];
      next_after_id := S (next_after_id w);
      pump_id := pump_id w |}).

Definition pump_queue (w : world) : world :=
  let w1 := {| q := []; output_box := drain (q w) (output_box w);
               timers := timers w; next_after_id := next_after_id w;
               pump_id := pump_id w |} in
  let (id, w2) := after 100 cb_pump_queue w1 in
  {| q := q w2; output_box := output_box w2; timers := timers w2;
     next_after_id := next_after_id w2; pump_id := Some id |}.

End Pump.

(* ===================================================================== *)
(** * Loading the preferences at start-up *)
(* ===================================================================== *)

Module Prefs.
Import PyStr.

(** What [json.load] returns: objects keep the order of their keys. *)
#[local] Set Warnings "-register-all".
Inductive json :=
| JNull
| JBool (b : bool)
| JNumber (repr : string)
| JString (s : string)
| JArray (items : list json)
| JObject (fields : list (string * json)).

(** The outside world at start-up: opening [prefs.json] raises or gives a
    file whose [read] raises or gives a text, and [json.loads] raises (it
    does on malformed input) or gives a value. *)
Record prefs_env := {
  open_prefs : exn + (exn + string);
  json_loads : string -> exn + json
}.

(** [json.load(f)] is [json.loads(f.read())]. *)
Definition json_load (env : prefs_env) (f : exn + string) : exn + json :=
  match f with
  | inl e => inl e
  | inr txt => json_loads env txt
  end.

(** The body of the [try]: [with open(prefs_file, ...) as f:
    prefs = json.load(f)]. *)
Definition read_prefs (env : prefs_env) : exn + json :=
  match open_prefs env with
  | inl e => inl e
  | inr f => json_load env f
  end.

(** [try: ... except Exception: prefs = {}] *)
Definition prefs (env : prefs_env) : json :=
  match read_prefs env with
  | inr v => v
  | inl _ => JObject []
  end.

(** Opening the file, reading it or parsing its text raises. *)
Definition load_fails (env : prefs_env) : bool :=
  match open_prefs env with
  | inl _ => true
  | inr (inl _) => true
  | inr (inr txt) =>
      match json_loads env txt with inl _ => true | inr _ => false end
  end.

(** The value is an object (a Python [dict]). *)
Definition is_object (v : json) : bool :=
  match v with JObject _ => true | _ => false end.

(** [d.get(key, default)] on the fields of an object. *)
Fixpoint dict_get (key : string) (fields : list (string * json))
         (default : json) : json :=
  match fields with
  | [] => default
  | (k, v) :: rest => if String.eqb k key then v else dict_get key rest default
  end.

(** [list(prefs.get("presets", {}).keys()) or ["Default"]], the values
    of the preset menu: the first use of [prefs] after it is loaded.  A
    value that is not an object has no [get], or no [keys], and the
    attribute look-up raises. *)
Definition preset_values (p : json) : exn + list string :=
  match p with
  | JObject fields =>
      match dict_get "presets" fields (JObject []) with
      | JObject presets =>
          match map fst presets with
          | [] => inr ["Default"]
          | keys => inr keys
          end
      | _ => inl (Exc "object has no attribute 'keys'")
      end
  | _ => inl (Exc "object has no attribute 'get'")
  end.

End Prefs.

(* ===================================================================== *)
(** * The argument builder: [start_download] *)
(* ===================================================================== *)

Module Builder.
Import PyStr Eff.
Local Open Scope eff_scope.

(** The form: what the widgets hold when the Download button is pressed. *)
Record form := {
  url_text : string;      (** [url_text.get("1.0", "end")] *)
  folder_entry : string;  (** [folder_entry.get()] *)
  audio_var : bool;
  quality_var : string;
  subs_var : string;
  sponsor_var : bool;
  rate_entry : string;
  proxy_entry : string;
  rename_entry : string
}.

(** What lies outside the form.  The probe, the existence test and the
    message box are asked once per turn of the loop at most, so each
    answer is given for the turn [i] (the position of the line in the
    text) and the argument of the call. *)
Record ui_env := {
  (** the module constant [yt_dlp_exe] *)
  yt_dlp_exe : string;
  (** [os.getcwd()]: raises (the current directory was deleted) or
      gives its path *)
  os_getcwd : exn + string;
  (** [os.path.join] *)
  os_path_join : string -> string -> string;
  (** [subprocess.run([yt_dlp_exe, "--no-print-traffic", "--print",
      "filename", url], ..., check=True, text=True)]: raises, or gives
      the text the child wrote to its standard output *)
  run_print_filename : nat -> string -> exn + string;
  (** [os.path.exists] *)
  os_path_exists : nat -> string -> bool;
  (** [messagebox.askyesno(_("File Exists"), ..., parent=app)] for the
      path named in the message *)
  askyesno : nat -> string -> bool
}.

(** A thread started by [threaded_yt_dlp]: the arguments of its
    [_run_yt_dlp]. *)
Definition job : Type := list string * option string.

Record world := {
  q : list string;       (** the Line Queue, oldest first *)
  threads : list job     (** the runner threads started, oldest first *)
}.

Definition idle : world := {| q := []; threads := [] |}.

Section Build.
Variable env : ui_env.
Variable fm : form.

Abbreviation M := (Eff.M world).

Definition q_put (line : string) : M unit :=
  modify (fun w => {| q := q w ++ [line]; threads := threads w |}).

(** [threaded_yt_dlp(args, post_hook)] *)
Definition threaded_yt_dlp (args : list string)
           (post_hook : option string) : M unit :=
  modify (fun w => {| q := q w; threads := threads w ++ [(args, post_hook)] |}).

(** [get_expected_filename(url, folder)], called in turn [i]. *)
Definition get_expected_filename (i : nat) (url folder : string)
  : option string :=
  match run_print_filename env i url with
  | inr out => Some (os_path_join env folder (strip out))
  | inl _ => None
  end.

(** [ask_overwrite(path)], called in turn [i]. *)
Definition ask_overwrite (i : nat) (path : string) : bool :=
  askyesno env i path.

(** [folder_entry.get().strip() or os.getcwd()]: [os.getcwd] is called
    only when the entry is blank. *)
Definition folder : exn + string :=
  let f := strip (folder_entry fm) in
  if truthy f then inr f else os_getcwd env.

(** Lines 196-205: audio or video. *)
Definition format_args : list string :=
  if audio_var fm then ["-x"; "--audio-format"; "mp3"]
  else
    let qstr := quality_var fm in
    if negb (String.eqb qstr "Best") then
      let res := rstrip_char "p"%char qstr in
      ["-f"; ("bestvideo[height<=" ++ res ++ "]+bestaudio/best")%string]
    else ["-f"; "bv*+ba/best"].

(** Lines 207-212: subtitles and SponsorBlock. *)
Definition subs_args : list string :=
  let sub_lang := subs_var fm in
  (if truthy sub_lang
   then ["--write-subs"; ("--sub-lang=" ++ sub_lang)%string] else [])
  ++ (if sponsor_var fm then ["--sponsorblock-remove"; "all"] else []).

(** Lines 214-220: rate limit and proxy. *)
Definition net_args : list string :=
  let rate := strip (rate_entry fm) in
  let proxy := strip (proxy_entry fm) in
  (if truthy rate then ["--limit-rate"; rate] else [])
  ++ (if truthy proxy then ["--proxy"; proxy] else []).

(** Lines 222-225: the rename template. *)
Definition rename_args : list string :=
  let tpl := strip (rename_entry fm) in
  if truthy tpl then ["-o"; tpl] else [].

(** The list [args] of one job, as lines 194-225 build it with [+=],
    for the value [folder] of line 182. *)
Definition job_args (folder url : string) : list string :=
  let args := [yt_dlp_exe env; url; "-P"; folder] in
  let args := args ++ format_args in
  let args := args ++ subs_args in
  let args := args ++ net_args in
  let args := args ++ rename_args in
  args.

(** [f"Skipped {url}\n"] *)
Definition skipped_line (url : string) : string :=
  ("Skipped " ++ url ++ nl)%string.

(** One turn of the [for] loop, for the [i]-th line.  [None] and the
    empty string are the falsy values of [expected]. *)
Definition download_one (folder : string) (i : nat) (url : string)
  : M unit :=
  if is_empty url then ret tt                                (* continue *)
  else
    let build := threaded_yt_dlp (job_args folder url) None in
    match get_expected_filename i url folder with
    | Some expected =>
        if truthy expected && os_path_exists env i expected then
          if negb (ask_overwrite i expected)
          then q_put (skipped_line url)                      (* continue *)
          else build
        else build
    | None => build
    end.

(** [for url in urls: ...], the turns counted from [i]. *)
Fixpoint for_url_in (folder : string) (i : nat) (urls : list string)
  : M unit :=
  match urls with
  | [] => ret tt
  | url :: rest => download_one folder i url ;; for_url_in folder (S i) rest
  end.

(** Lines 181-182 come before the loop: when [os.getcwd()] raises, the
    press raises before any line is looked at. *)
Definition start_download : M unit :=
  let urls := splitlines (strip (url_text fm)) in
  match folder with
  | inl e => raise e
  | inr dir => for_url_in dir 0 urls
  end.

(** The argument lists of the jobs one press of the button starts. *)
Definition jobs_built : list (list string) :=
  map fst (threads (snd (start_download idle))).

(** The verdict of the overwrite gate of turn [i]: the probe names a
    file, the file exists, and the user answers no. *)
Definition refused (folder : string) (i : nat) (url : string) : bool :=
  match get_expected_filename i url folder with
  | Some expected =>
      truthy expected && os_path_exists env i expected
      && negb (ask_overwrite i expected)
  | None => false
  end.

(** The lines that get a job, and those that get a [Skipped] line,
    among the lines [urls] of the turns from [i] on. *)
Fixpoint kept_urls (folder : string) (i : nat) (urls : list string)
  : list string :=
  match urls with
  | [] => []
  | url :: rest =>
      if is_empty url || refused folder i url
      then kept_urls folder (S i) rest
      else url :: kept_urls folder (S i) rest
  end.

Fixpoint refused_urls (folder : string) (i : nat) (urls : list string)
  : list string :=
  match urls with
  | [] => []
  | url :: rest =>
      if negb (is_empty url) && refused folder i url
      then url :: refused_urls folder (S i) rest
      else refused_urls folder (S i) rest
  end.

(** The texts copied into the argument list of the job of [url] from
    outside the builder: the executable path, the URL line, the folder,
    the rate, the proxy and the template. *)
Definition copied_texts (folder url : string) : list string :=
  [yt_dlp_exe env; url; folder; strip (rate_entry fm);
   strip (proxy_entry fm); strip (rename_entry fm)].

(** The lines of the URL box, and those of them that are not empty. *)
Definition url_lines : list string := splitlines (strip (url_text fm)).

Definition nonempty_lines : list string :=
  filter (fun u => negb (is_empty u)) url_lines.

(** The jobs and the queue lines of a press, for each outcome of line
    182. *)
Definition jobs_for_folder : list (list string) :=
  match folder with
  | inr dir => map (job_args dir) (kept_urls dir 0 url_lines)
  | inl _ => []
  end.

Definition skipped_for_folder : list string :=
  match folder with
  | inr dir => map skipped_line (refused_urls dir 0 url_lines)
  | inl _ => []
  end.
End Build.

End Builder.

(* ===================================================================== *)
(** * Sample runs *)
(* ===================================================================== *)

(** Concrete outside worlds and forms, on which the statements below are
    evaluated. *)
Module Samples.
Import PyStr.

(** ** The runner *)

Definition sample_args : list string :=
  ["yt-dlp.exe"; "https://example.org/watch?v=1"; "-P"; "/home/u/Videos"].

Definition sample_lines : list string :=
  [("[youtube] Extracting URL" ++ nl)%string;
   ("[download] 100% of 3.5MiB" ++ nl)%string].

Definition quiet_child : Runner.child :=
  {| Runner.pid := 4242;
     Runner.stdout_lines := sample_lines;
     Runner.stdout_error := None;
     Runner.wait_error := None |}.

(** Everything works. *)
Definition env_clean : Runner.os_env :=
  {| Runner.open_log_error := None;
     Runner.log_write_error := fun _ => None;
     Runner.log_close_error := None;
     Runner.log_cut := 29;
     Runner.popen := fun _ => inr quiet_child;
     Runner.popen_shell_error := fun _ => None;
     Runner.notify_error := fun _ _ => None |}.

(** The executable is missing, and so is the notification service. *)
Definition env_no_exe : Runner.os_env :=
  {| Runner.open_log_error := None;
     Runner.log_write_error := fun _ => None;
     Runner.log_close_error := None;
     Runner.log_cut := 29;
     Runner.popen :=
       fun _ => inl (Exc "[Errno 2] No such file or directory: 'yt-dlp.exe'");
     Runner.popen_shell_error := fun _ => None;
     Runner.notify_error := fun _ _ => Some (Exc "no usable notifier") |}.

(** The state of a program that has just started. *)
Definition fresh_world : Runner.world :=
  {| Runner.q := []; Runner.log_text := EmptyString;
     Runner.current_process := None; Runner.hooks_started := [];
     Runner.notify_calls := []; Runner.notified := [] |}.

(** ** The pump *)

Definition quiet_gui : Pump.world :=
  {| Pump.q := [];
     Pump.output_box := {| Pump.state := Pump.disabled;
                           Pump.text := "[download] 100%";
                           Pump.view_end := 15 |};
     Pump.timers := [(1, (2000, Pump.cb_poll_clipboard))];
     Pump.next_after_id := 2;
     Pump.pump_id := Some 0 |}.

(** ** The preferences *)

Definition env_no_prefs : Prefs.prefs_env :=
  {| Prefs.open_prefs := inl (Exc "[Errno 2] No such file or directory");
     Prefs.json_loads := fun _ => inl (Exc "Expecting value") |}.

(** ** The builder *)

Definition url_a : string := "https://a.example/1".
Definition url_b : string := "https://b.example/2".

(** Two URLs with one blank line between them, as the text box returns
    them: with a line feed at the end.  Audio only. *)
Definition form_two_urls : Builder.form :=
  {| Builder.url_text := (url_a ++ nl ++ nl ++ url_b ++ nl)%string;
     Builder.folder_entry := "/home/u/Videos";
     Builder.audio_var := true;
     Builder.quality_var := "Best";
     Builder.subs_var := EmptyString;
     Builder.sponsor_var := false;
     Builder.rate_entry := EmptyString;
     Builder.proxy_entry := EmptyString;
     Builder.rename_entry := EmptyString |}.

(** The same form with the text [-f] typed in the URL box. *)
Definition form_dash_f : Builder.form :=
  {| Builder.url_text := ("-f" ++ nl)%string;
     Builder.folder_entry := "/home/u/Videos";
     Builder.audio_var := true;
     Builder.quality_var := "Best";
     Builder.subs_var := EmptyString;
     Builder.sponsor_var := false;
     Builder.rate_entry := EmptyString;
     Builder.proxy_entry := EmptyString;
     Builder.rename_entry := EmptyString |}.

Definition posix_join (a b : string) : string := (a ++ "/" ++ b)%string.

(** No output file exists yet. *)
Definition env_fresh : Builder.ui_env :=
  {| Builder.yt_dlp_exe := "yt-dlp.exe";
     Builder.os_getcwd := inr "/home/u";
     Builder.os_path_join := posix_join;
     Builder.run_print_filename := fun _ _ => inr ("clip.mp4" ++ nl)%string;
     Builder.os_path_exists := fun _ _ => false;
     Builder.askyesno := fun _ _ => true |}.

(** The probe itself fails, so no file name is known. *)
Definition env_probe_fails : Builder.ui_env :=
  {| Builder.yt_dlp_exe := "yt-dlp.exe";
     Builder.os_getcwd := inr "/home/u";
     Builder.os_path_join := posix_join;
     Builder.run_print_filename :=
       fun _ _ => inl (Exc "returned non-zero exit status 1");
     Builder.os_path_exists := fun _ _ => true;
     Builder.askyesno := fun _ _ => false |}.

(** Every output file exists, and the user declines to replace the one
    of the first line. *)
Definition env_declines_first : Builder.ui_env :=
  {| Builder.yt_dlp_exe := "yt-dlp.exe";
     Builder.os_getcwd := inr "/home/u";
     Builder.os_path_join := posix_join;
     Builder.run_print_filename := fun _ _ => inr ("clip.mp4" ++ nl)%string;
     Builder.os_path_exists := fun _ _ => true;
     Builder.askyesno := fun i _ => negb (i =? 0)%nat |}.

End Samples.

(* ===================================================================== *)
(** * The clipboard watcher: [poll_clipboard] *)
(* ===================================================================== *)

Module Clipboard.
Import PyStr.

(** The part of the program state the watcher touches: the text of the
    URL box (without the line feed the widget keeps at its end), the
    global [clipboard_last], and the timers Tk holds. *)
Record world := {
  url_box : string;
  clipboard_last : string;
  timers : list (nat * (nat * Pump.callback));
  next_after_id : nat
}.

(** [url_text.get("1.0", "end")]: the text of the box and the line feed
    the widget adds. *)
Definition url_text_get (w : world) : string := (url_box w ++ nl)%string.

(** [url_text.delete("1.0", "end"); url_text.insert("end", clip);
    clipboard_last = clip] *)
Definition paste (clip : string) (w : world) : world :=
  {| url_box := clip; clipboard_last := clip;
     timers := timers w; next_after_id := next_after_id w |}.

(** [app.after(ms, cb)], its identifier dropped. *)
Definition after (ms : nat) (cb : Pump.callback) (w : world) : world :=
  {| url_box := url_box w; clipboard_last := clipboard_last w;
     timers := timers w ++ [(next_after_id w, (ms, cb))];
     next_after_id := S (next_after_id w) |}.

(** The body of the [try], for a clipboard that was read. *)
Definition take (clip : string) (w : world) : world :=
  if startswith "http" clip && negb (String.eqb clip (clipboard_last w))
  then paste clip w
  else w.

(** [poll_clipboard()], where [clipboard] is what [app.clipboard_get()]
    does at this poll: it raises (the clipboard is empty or holds no
    text) or it returns the text. *)
Definition poll_clipboard (clipboard : exn + string) (w : world) : world :=
  let w1 :=
    match clipboard with
    | inr clip => take clip w
    | inl _ => w                                      (* except: pass *)
    end in
  after 2000 Pump.cb_poll_clipboard w1.

(** The user types in the URL box. *)
Definition user_edits (txt : string) (w : world) : world :=
  {| url_box := txt; clipboard_last := clipboard_last w;
     timers := timers w; next_after_id := next_after_id w |}.

(** What happens between two presses of a button: a poll with the given
    clipboard, or an edit of the URL box by the user. *)
Inductive event :=
| Poll (clipboard : exn + string)
| Edit (txt : string).

Definition step (w : world) (ev : event) : world :=
  match ev with
  | Poll clipboard => poll_clipboard clipboard w
  | Edit txt => user_edits txt w
  end.

Definition run (evs : list event) (w : world) : world :=
  fold_left step evs w.

(** The state at start-up: an empty box, [clipboard_last = ""]. *)
Definition start : world :=
  {| url_box := EmptyString; clipboard_last := EmptyString;
     timers := []; next_after_id := 0 |}.

(** The clipboard holds [clip], or cannot be read, at every poll of
    [evs]. *)
Definition same_clipboard (clip : string) (evs : list event) : Prop :=
  Forall (fun ev => match ev with
                    | Poll (inr c) => c = clip
                    | _ => True
                    end) evs.

(** The text the user typed last during [evs], [txt] when there is
    none. *)
Definition last_edit (evs : list event) (txt : string) : string :=
  fold_left (fun t ev => match ev with Edit t' => t' | Poll _ => t end)
            evs txt.

(** A text the watcher would not paste: it is no link, or it is the one
    pasted last. *)
Definition stale (clip : string) (w : world) : Prop :=
  startswith "http" clip = false \/ clipboard_last w = clip.


End Clipboard.

(* ===================================================================== *)
(** * Start-up: [ensure_yt_dlp], and [pick_folder] *)
(* ===================================================================== *)

Module Startup.
Import PyStr.

(** What [urllib.request.urlretrieve(url, yt_dlp_exe)] does: it returns
    with the file written, or it raises, before the file is created or
    with a part of it left on the disk. *)
Inductive retrieval :=
| Retrieved
| Failed (e : exn) (file_left : bool).

(** The file system and the screen, as far as [ensure_yt_dlp] goes:
    whether [yt_dlp_exe] exists, whether it is the whole executable, and
    the error boxes shown (title and message). *)
Record world := {
  exe_exists : bool;
  exe_complete : bool;
  error_boxes : list (string * string)
}.

(** [ensure_yt_dlp()], where [r] is what the download does if it is
    tried. *)
Definition ensure_yt_dlp (r : retrieval) (w : world) : world :=
  if exe_exists w then w                                     (* return *)
  else
    match r with
    | Retrieved =>
        {| exe_exists := true; exe_complete := true;
           error_boxes := error_boxes w |}
    | Failed e file_left =>
        {| exe_exists := file_left; exe_complete := false;
           error_boxes :=
             error_boxes w ++ [(Runner.gettext_ "Download Failed", exc_str e)] |}
    end.

(** One call at each start of the program. *)
Definition starts (rs : list retrieval) (w : world) : world :=
  fold_left (fun w r => ensure_yt_dlp r w) rs w.

(** [pick_folder()], where [path] is what [filedialog.askdirectory]
    returns: the directory chosen, or the empty string when the dialog is
    cancelled.  The state is the text of [folder_entry]. *)
Definition pick_folder (path : string) (folder_entry : string) : string :=
  if truthy path then path else folder_entry.

End Startup.

(* ===================================================================== *)
(** * The pieces together *)
(* ===================================================================== *)

Module Desk.
Import PyStr.

(** The pump sees the queue the runner fills: the state of the pump
    with the queue the runner left. *)
Definition after_runner (rw : Runner.world) (g : Pump.world) : Pump.world :=
  {| Pump.q := Runner.q rw;
     Pump.output_box := Pump.output_box g;
     Pump.timers := Pump.timers g;
     Pump.next_after_id := Pump.next_after_id g;
     Pump.pump_id := Pump.pump_id g |}.

(** The form the Download button reads when the URL box is the one the
    clipboard watcher fills. *)
Definition form_of (c : Clipboard.world) (fm : Builder.form) : Builder.form :=
  {| Builder.url_text := Clipboard.url_text_get c;
     Builder.folder_entry := Builder.folder_entry fm;
     Builder.audio_var := Builder.audio_var fm;
     Builder.quality_var := Builder.quality_var fm;
     Builder.subs_var := Builder.subs_var fm;
     Builder.sponsor_var := Builder.sponsor_var fm;
     Builder.rate_entry := Builder.rate_entry fm;
     Builder.proxy_entry := Builder.proxy_entry fm;
     Builder.rename_entry := Builder.rename_entry fm |}.

(** The form after [pick_folder]. *)
Definition with_folder (path : string) (fm : Builder.form) : Builder.form :=
  {| Builder.url_text := Builder.url_text fm;
     Builder.folder_entry := Startup.pick_folder path (Builder.folder_entry fm);
     Builder.audio_var := Builder.audio_var fm;
     Builder.quality_var := Builder.quality_var fm;
     Builder.subs_var := Builder.subs_var fm;
     Builder.sponsor_var := Builder.sponsor_var fm;
     Builder.rate_entry := Builder.rate_entry fm;
     Builder.proxy_entry := Builder.proxy_entry fm;
     Builder.rename_entry := Builder.rename_entry fm |}.

End Desk.

(* ===================================================================== *)
(** * More sample runs *)
(* ===================================================================== *)

Module MoreSamples.
Import PyStr Samples.

(** A child whose output cannot be decoded after its two lines. *)
Definition garbled_child : Runner.child :=
  {| Runner.pid := 4243;
     Runner.stdout_lines := sample_lines;
     Runner.stdout_error :=
       Some (Exc "'charmap' codec can't decode byte 0x81");
     Runner.wait_error := None |}.

Definition env_garbled : Runner.os_env :=
  Runner.with_popen (fun _ => inr garbled_child) env_clean.

(** The disk is full when the second line is written to the log. *)
Definition env_disk_full : Runner.os_env :=
  {| Runner.open_log_error := None;
     Runner.log_write_error :=
       fun i => if (i =? 1)%nat
                then Some (Exc "[Errno 28] No space left on device")
                else None;
     Runner.log_close_error := None;
     Runner.log_cut := 29;
     Runner.popen := fun _ => inr quiet_child;
     Runner.popen_shell_error := fun _ => None;
     Runner.notify_error := fun _ _ => None |}.

(** The log file cannot be opened. *)
Definition env_no_log : Runner.os_env :=
  {| Runner.open_log_error := Some (Exc "[Errno 13] Permission denied");
     Runner.log_write_error := fun _ => None;
     Runner.log_close_error := None;
     Runner.log_cut := 29;
     Runner.popen := fun _ => inr quiet_child;
     Runner.popen_shell_error := fun _ => None;
     Runner.notify_error := fun _ _ => None |}.

(** A pump state with two lines waiting. *)
Definition busy_gui : Pump.world :=
  {| Pump.q := sample_lines;
     Pump.output_box := {| Pump.state := Pump.disabled;
                           Pump.text := EmptyString;
                           Pump.view_end := 0 |};
     Pump.timers := [];
     Pump.next_after_id := 0;
     Pump.pump_id := None |}.

(** Preferences that are well-formed JSON but no object: [[]]. *)
Definition env_list_prefs : Prefs.prefs_env :=
  {| Prefs.open_prefs := inr (inr "[]");
     Prefs.json_loads := fun _ => inr (Prefs.JArray []) |}.

(** A video form with the quality [720p] and one URL. *)
Definition form_720p : Builder.form :=
  {| Builder.url_text := (url_a ++ nl)%string;
     Builder.folder_entry := EmptyString;
     Builder.audio_var := false;
     Builder.quality_var := "720p";
     Builder.subs_var := "en";
     Builder.sponsor_var := true;
     Builder.rate_entry := "500K";
     Builder.proxy_entry := EmptyString;
     Builder.rename_entry := EmptyString |}.

(** Two URLs with a line holding one space between them. *)
Definition form_blank_between : Builder.form :=
  {| Builder.url_text := (url_a ++ (nl ++ " " ++ nl) ++ url_b ++ nl)%string;
     Builder.folder_entry := EmptyString;
     Builder.audio_var := false;
     Builder.quality_var := "Best";
     Builder.subs_var := EmptyString;
     Builder.sponsor_var := false;
     Builder.rate_entry := EmptyString;
     Builder.proxy_entry := EmptyString;
     Builder.rename_entry := EmptyString |}.

(** A form whose URL box holds white space only. *)
Definition form_blank : Builder.form :=
  {| Builder.url_text := ("  " ++ nl)%string;
     Builder.folder_entry := EmptyString;
     Builder.audio_var := false;
     Builder.quality_var := "Best";
     Builder.subs_var := EmptyString;
     Builder.sponsor_var := false;
     Builder.rate_entry := EmptyString;
     Builder.proxy_entry := EmptyString;
     Builder.rename_entry := EmptyString |}.

(** The current directory was deleted. *)
Definition env_no_cwd : Builder.ui_env :=
  {| Builder.yt_dlp_exe := "yt-dlp.exe";
     Builder.os_getcwd :=
       inl (Exc "[Errno 2] No such file or directory");
     Builder.os_path_join := posix_join;
     Builder.run_print_filename := fun _ _ => inr ("clip.mp4" ++ nl)%string;
     Builder.os_path_exists := fun _ _ => false;
     Builder.askyesno := fun _ _ => true |}.

(** A post-hook. *)
Definition sample_hook : string := "notify-send done".

(** A one-element argument list. *)
Definition bare_args : list string := ["yt-dlp.exe"].


(** The clipboard holds a link; the user then types in the box, and the
    watcher polls twice more, the second time without success. *)
Definition clip_link : string := "https://c.example/3".

Definition later_events : list Clipboard.event :=
  [Clipboard.Edit "https://typed.example/4";
   Clipboard.Poll (inr clip_link);
   Clipboard.Poll (inl (Exc "CLIPBOARD selection doesn't exist"))].

(** No executable yet. *)
Definition no_exe : Startup.world :=
  {| Startup.exe_exists := false; Startup.exe_complete := false;
     Startup.error_boxes := [] |}.

End MoreSamples.

(** Split a conjunction into its parts, and nothing else. *)
Ltac conjs := repeat match goal with |- _ /\ _ => split end.

(* ===================================================================== *)
(** * Properties of the string operations *)
(* ===================================================================== *)

Section PyStrFacts.
Import PyStr.

Lemma append_empty_r (s : string) : (s ++ EmptyString)%string = s.
Proof. induction s as [|c s IH]; simpl; [reflexivity | now rewrite IH]. Qed.

Lemma append_assoc (a b c : string) :
  (a ++ (b ++ c))%string = ((a ++ b) ++ c)%string.
Proof. induction a as [|x a IH]; simpl; [reflexivity | now rewrite IH]. Qed.

Lemma join_app (a b : list string) :
  join (a ++ b) = (join a ++ join b)%string.
Proof.
  induction a as [|x a IH]; simpl; [reflexivity|].
  rewrite IH. apply append_assoc.
Qed.

Lemma string_take_drop n : forall s,
  (string_take n s ++ string_drop n s)%string = s.
Proof.
  induction n as [|n IH]; intros [|c s]; simpl; try reflexivity.
  now rewrite IH.
Qed.

Lemma string_drop_app base x :
  string_drop (String.length base) (base ++ x) = x.
Proof. induction base as [|c base IH]; simpl; [now destruct x | exact IH]. Qed.

Lemma string_take_idem n : forall s,
  string_take n (string_take n s) = string_take n s.
Proof.
  induction n as [|n IH]; intros [|c s]; simpl; try reflexivity.
  now rewrite IH.
Qed.

Lemma string_take_all n : forall s,
  String.length s <= n -> string_take n s = s.
Proof.
  induction n as [|n IH]; intros [|c s] H; simpl in *; try reflexivity;
    try lia.
  rewrite IH; [reflexivity | lia].
Qed.

(** Every line boundary is white space. *)
Lemma linebreak_isspace c : is_linebreak c = true -> isspace c = true.
Proof.
  destruct c as [[] [] [] [] [] [] [] []]; vm_compute;
    intros H; first [reflexivity | discriminate H].
Qed.

Lemma is_empty_app a b : is_empty (a ++ b) = is_empty a && is_empty b.
Proof. now destruct a. Qed.

Lemma no_space_rstrip u : no_space u = true -> rstrip u = u.
Proof.
  induction u as [|c u IH]; simpl; [reflexivity|].
  intros H. apply andb_true_iff in H as [Hc Hu].
  apply negb_true_iff in Hc. rewrite Hc, andb_false_r, IH by assumption.
  reflexivity.
Qed.

(** Nothing is stripped on the right of a text that ends with a URL. *)
Lemma rstrip_app_url a u : is_url u = true -> rstrip (a ++ u) = (a ++ u)%string.
Proof.
  unfold is_url, truthy. intros H. apply andb_true_iff in H as [Hne Hu].
  induction a as [|c a IH]; simpl.
  - now apply no_space_rstrip.
  - rewrite IH, is_empty_app.
    apply negb_true_iff in Hne. now rewrite Hne, andb_false_r.
Qed.

Lemma all_space_rstrip t : all_space t = true -> rstrip t = EmptyString.
Proof.
  induction t as [|c t IH]; simpl; [reflexivity|].
  intros H. apply andb_true_iff in H as [Hc Ht].
  now rewrite IH, Hc.
Qed.

(** White space at the end is stripped whatever comes before. *)
Lemma rstrip_app_space a t : all_space t = true -> rstrip (a ++ t) = rstrip a.
Proof.
  intros Ht. induction a as [|c a IH]; simpl.
  - now apply all_space_rstrip.
  - now rewrite IH.
Qed.

Lemma lstrip_app_space h s : all_space h = true -> lstrip (h ++ s) = lstrip s.
Proof.
  induction h as [|c h IH]; simpl; [reflexivity|].
  intros H. apply andb_true_iff in H as [Hc Hh]. now rewrite Hc, IH.
Qed.

Lemma lstrip_url u s : is_url u = true -> lstrip (u ++ s) = (u ++ s)%string.
Proof.
  unfold is_url, truthy. destruct u as [|c u]; simpl; [discriminate|].
  intros H. apply andb_true_iff in H as [Hc _].
  apply negb_true_iff in Hc. now rewrite Hc.
Qed.

(** [strip] of a text that begins and ends with a URL, white space
    around it apart. *)
Lemma strip_between_urls head u1 mid u2 tail :
  all_space head = true -> all_space tail = true ->
  is_url u1 = true -> is_url u2 = true ->
  strip (head ++ u1 ++ mid ++ u2 ++ tail) = (u1 ++ mid ++ u2)%string.
Proof.
  intros Hh Ht H1 H2. unfold strip.
  rewrite lstrip_app_space, lstrip_url by assumption.
  replace (u1 ++ mid ++ u2 ++ tail)%string
    with (((u1 ++ mid) ++ u2) ++ tail)%string
    by now rewrite <- !append_assoc.
  rewrite rstrip_app_space, rstrip_app_url by assumption.
  now rewrite <- append_assoc.
Qed.

(** Reading a stretch without white space adds it to the line read. *)
Lemma splitlines_from_no_space u : forall cur rest,
  no_space u = true ->
  splitlines_from cur false (u ++ rest)
  = splitlines_from (cur ++ u) false rest.
Proof.
  induction u as [|c u IH]; intros cur rest H; simpl.
  - now rewrite append_empty_r.
  - simpl in H. apply andb_true_iff in H as [Hc Hu].
    apply negb_true_iff in Hc.
    destruct (is_linebreak c) eqn:Hb.
    + apply linebreak_isspace in Hb. congruence.
    + rewrite IH by assumption. now rewrite <- append_assoc.
Qed.

End PyStrFacts.

(* ===================================================================== *)
(** * Properties of the job runner *)
(* ===================================================================== *)

Section RunnerFacts.
Import PyStr Eff Runner.

Variable env : os_env.

Lemma same_handles_refl w : same_handles w w.
Proof. conjs; try easy. Qed.

(** When every write succeeds and the stream ends, the loop forwards
    every line to the queue and to the log, in order. *)
Lemma for_line_in_clean lg lines :
  (forall i, log_write_error env i = None) ->
  forall i w, exists w',
    for_line_in i lines None (forward env lg) w = (Returns tt, w')
    /\ q w' = q w ++ lines
    /\ log_text w' = (log_text w ++ join lines)%string
    /\ same_handles w w'.
Proof.
  intros Hw. induction lines as [|line rest IH]; intros i w.
  - exists w. simpl. rewrite app_nil_r, append_empty_r.
    conjs; try easy; apply same_handles_refl.
  - simpl. unfold forward at 1, bind, q_put, lg_write, modify.
    rewrite Hw.
    destruct (IH (S i) (set_log_text (fun t => (t ++ line)%string)
                          (set_q (fun l => l ++ [line]) w)))
      as (w' & E & Hq & Hl & Hs).
    exists w'. rewrite E. simpl in Hq, Hl.
    conjs; try easy; try apply Hs.
    + rewrite Hq, <- app_assoc. reflexivity.
    + rewrite Hl. simpl. symmetry. apply append_assoc.
Qed.

(** Whatever happens, the loop puts on the queue a prefix of the lines,
    touches nothing but the queue and the log, and cannot return when
    the stream ends with an exception. *)
Lemma for_line_in_any lg lines stdout_end :
  forall i w, exists r w' fwd rest,
    for_line_in i lines stdout_end (forward env lg) w = (r, w')
    /\ lines = fwd ++ rest
    /\ q w' = q w ++ fwd
    /\ same_handles w w'
    /\ (stdout_end <> None -> exists e, r = Raises e).
Proof.
  induction lines as [|line more IH]; intros i w.
  - simpl. destruct stdout_end as [e|].
    + exists (Raises e), w, [], []. rewrite !app_nil_r.
      conjs; try easy; try apply same_handles_refl. now exists e.
    + exists (Returns tt), w, [], []. rewrite !app_nil_r.
      conjs; try easy; apply same_handles_refl.
  - simpl. unfold forward at 1, bind, q_put, lg_write, modify.
    destruct (log_write_error env i) as [e|].
    + exists (Raises e),
        (set_log_text (fun t => cut_log env lg (t ++ line))
           (set_q (fun l => l ++ [line]) w)), [line], more.
      conjs; try easy. now exists e.
    + destruct (IH (S i) (set_log_text (fun t => (t ++ line)%string)
                            (set_q (fun l => l ++ [line]) w)))
        as (r & w' & fwd & rest & E & Hl & Hq & Hs & Hr).
      exists r, w', (line :: fwd), rest. rewrite E. simpl in Hq.
      conjs; try easy; try apply Hs; try assumption.
      * simpl. now rewrite Hl.
      * rewrite Hq, <- app_assoc. reflexivity.
Qed.

(** The [finally] block always returns; it empties [current_process],
    leaves the queue and the log alone, and calls [notify] once. *)
Lemma run_cleanup_spec args post_hook w :
  exists w', run_cleanup env args post_hook w = (Returns tt, w')
    /\ q w' = q w
    /\ log_text w' = log_text w
    /\ current_process w' = None
    /\ notify_calls w'
       = notify_calls w
           ++ [(gettext_ "Download Complete", notification_message args)].
Proof.
  unfold run_cleanup, bind, swallow, try_except, notify, Popen_shell,
    modify, bind.
  destruct (hook_given post_hook) as [cmd|]; simpl;
    [destruct (popen_shell_error env cmd); simpl|];
    destruct (notify_error env _ _); simpl;
    eexists; conjs; try easy.
Qed.

(** The runner is the body, then the handler when the body raised,
    then the [finally] block; it always returns. *)
Lemma run_unfold args post_hook w :
  forall r w1, run_body env args w = (r, w1) ->
  _run_yt_dlp env args post_hook w
  = (Returns tt,
     snd (run_cleanup env args post_hook
            match r with
            | Returns _ => w1
            | Raises e => set_q (fun l => l ++ [error_line e]) w1
            end)).
Proof.
  intros r w1 E. unfold _run_yt_dlp, try_finally, try_except.
  rewrite E. destruct r as [[]|e].
  - destruct (run_cleanup_spec args post_hook w1) as (w' & -> & _).
    reflexivity.
  - unfold q_put, modify.
    destruct (run_cleanup_spec args post_hook
                (set_q (fun l => l ++ [error_line e]) w1))
      as (w' & -> & _).
    reflexivity.
Qed.

Lemma run_returns args post_hook w :
  fst (_run_yt_dlp env args post_hook w) = Returns tt.
Proof.
  destruct (run_body env args w) as [r w1] eqn:E.
  now rewrite (run_unfold args post_hook w r w1 E).
Qed.

(** The body on a clean job. *)
Lemma run_body_clean args lines w :
  writes_then_exits env args lines -> log_writable env ->
  exists w1, run_body env args w = (Returns tt, w1)
    /\ q w1 = q w ++ lines
    /\ log_text w1 = (log_text w ++ join lines)%string.
Proof.
  intros (c & Hp & <- & He & Hwt) (Ho & Hw & Hc).
  unfold run_body, with_open_log, bind, Popen, modify, wait.
  rewrite Ho, Hp. simpl. rewrite He.
  destruct (for_line_in_clean (log_text w) (stdout_lines c) Hw 0
              (set_current_process (Some c) w))
    as (w' & E & Hq & Hlog & _).
  rewrite E, Hwt, Hc. simpl.
  exists w'. conjs; try easy; assumption.
Qed.

(** The body when the spawn or the read raises: it raises, after a
    prefix of the child's lines has gone to the queue. *)
Lemma run_body_raises args w :
  spawn_or_read_raises env args = true ->
  exists e w1 fwd rest,
    run_body env args w = (Raises e, w1)
    /\ child_lines env args = fwd ++ rest
    /\ q w1 = q w ++ fwd.
Proof.
  unfold spawn_or_read_raises, child_lines, run_body, with_open_log, bind,
    Popen, modify, wait.
  intros H.
  destruct (open_log_error env) as [eo|].
  { exists eo, w, [], (match popen env args with
                       | inl _ => [] | inr c => stdout_lines c end).
    conjs; try easy. now rewrite app_nil_r. }
  destruct (popen env args) as [e|c]; simpl.
  - destruct (log_close_error env) as [ec|].
    + eexists ec, _, [], []. conjs; try easy. simpl. now rewrite app_nil_r.
    + exists e, w, [], []. conjs; try easy. now rewrite app_nil_r.
  - destruct (stdout_error c) as [e|] eqn:Hend; [|discriminate].
    destruct (for_line_in_any (log_text w) (stdout_lines c) (Some e) 0
                (set_current_process (Some c) w))
      as (r & w' & fwd & rest & E & Hl & Hq & _ & Hr).
    rewrite E.
    destruct Hr as (e' & ->); [discriminate|].
    destruct (log_close_error env) as [ec|].
    + eexists ec, _, fwd, rest. conjs; try easy; assumption.
    + exists e', w', fwd, rest. conjs; try easy; assumption.
Qed.
End RunnerFacts.

Section RunnerClaims.
Import PyStr Eff Runner.

Variable env : os_env.

(** The body of the [try] never calls [notify]. *)
Lemma run_body_notify_calls args w :
  notify_calls (snd (run_body env args w)) = notify_calls w.
Proof.
  unfold run_body, with_open_log, bind, Popen, modify, wait.
  destruct (open_log_error env); [reflexivity|].
  destruct (popen env args) as [e|c]; simpl.
  - destruct (log_close_error env); reflexivity.
  - destruct (for_line_in_any env (log_text w) (stdout_lines c) (stdout_error c) 0
                (set_current_process (Some c) w))
      as (r & w' & fwd & rest & E & _ & _ & (_ & _ & Hn & _) & _).
    rewrite E. destruct r as [[]|e].
    + destruct (wait_error c); destruct (log_close_error env); exact Hn.
    + destruct (log_close_error env); exact Hn.
Qed.

(** The state the runner leaves, from the state the body leaves. *)
Lemma run_final args post_hook w :
  exists r w1 w',
    run_body env args w = (r, w1)
    /\ _run_yt_dlp env args post_hook w = (Returns tt, w')
    /\ current_process w' = None
    /\ q w' = match r with
              | Returns _ => q w1
              | Raises e => q w1 ++ [error_line e]
              end
    /\ log_text w' = log_text w1
    /\ notify_calls w'
       = notify_calls w
           ++ [(gettext_ "Download Complete", notification_message args)].
Proof.
  destruct (run_body env args w) as [r w1] eqn:E.
  pose proof (run_body_notify_calls args w) as Hn. rewrite E in Hn.
  exists r, w1. rewrite (run_unfold env args post_hook w r w1 E).
  destruct r as [[]|e].
  - destruct (run_cleanup_spec env args post_hook w1)
      as (w' & Ec & Hq & Hl & Hp & Hc).
    exists w'. rewrite Ec. simpl in *. conjs; try easy. now rewrite Hc, Hn.
  - destruct (run_cleanup_spec env args post_hook
                (set_q (fun l => l ++ [error_line e]) w1))
      as (w' & Ec & Hq & Hl & Hp & Hc).
    exists w'. rewrite Ec. simpl in *. conjs; try easy. now rewrite Hc, Hn.
Qed.

(** A spawn failure with a healthy log file: the queue gains the one
    line made from the exception of the spawn. *)
Lemma spawn_failure_line args post_hook w e :
  popen env args = inl e ->
  open_log_error env = None -> log_close_error env = None ->
  q (snd (_run_yt_dlp env args post_hook w)) = q w ++ [error_line e].
Proof.
  intros Hp Ho Hc.
  destruct (run_final args post_hook w)
    as (r & w1 & w' & E & -> & _ & Hq & _).
  simpl. rewrite Hq. revert E.
  unfold run_body, with_open_log, bind, Popen.
  rewrite Ho, Hp, Hc. intros [= <- <-]. reflexivity.
Qed.

(** The line the handler makes starts with the marker. *)
Lemma error_line_marker e : startswith "[ERROR] " (error_line e) = true.
Proof.
  unfold startswith, error_line. simpl.
  now destruct (exc_str e ++ nl)%string.
Qed.

(** C1, as amended.  For a job whose child process writes the lines
    [lines] and then exits, and whose activity log can be opened,
    written and closed without an exception, the runner returns having
    appended exactly [lines], in the order written, to the Line Queue,
    and their concatenation to the log file. *)
Theorem run_forwards_lines_in_order args post_hook lines w :
  writes_then_exits env args lines -> log_writable env ->
  fst (_run_yt_dlp env args post_hook w) = Returns tt
  /\ q (snd (_run_yt_dlp env args post_hook w)) = q w ++ lines
  /\ log_text (snd (_run_yt_dlp env args post_hook w))
     = (log_text w ++ join lines)%string.
Proof.
  intros Hc Hl.
  destruct (run_body_clean env args lines w Hc Hl) as (w1 & E & Hq & Hlog).
  destruct (run_final args post_hook w)
    as (r & w1' & w' & E' & -> & _ & Hq' & Hlog' & _).
  rewrite E in E'. injection E' as <- <-.
  simpl. conjs; congruence.
Qed.

(** C2.  When spawning the child or reading its output raises, the
    runner returns normally, [current_process] is [None] afterwards, and
    the exception has become exactly one queue item, which starts with
    the marker [[ERROR] ]; it comes after the lines already read (none
    when the spawn failed). *)
Theorem run_turns_exception_into_one_error_line args post_hook w :
  spawn_or_read_raises env args = true ->
  fst (_run_yt_dlp env args post_hook w) = Returns tt
  /\ current_process (snd (_run_yt_dlp env args post_hook w)) = None
  /\ exists e fwd rest,
       child_lines env args = fwd ++ rest
       /\ q (snd (_run_yt_dlp env args post_hook w))
          = q w ++ fwd ++ [error_line e]
       /\ startswith "[ERROR] " (error_line e) = true.
Proof.
  intros H.
  destruct (run_body_raises env args w H)
  as (e & w1 & fwd & rest & E & Hl & Hq).
  destruct (run_final args post_hook w)
    as (r & w1' & w' & E' & -> & Hp & Hq' & _).
  rewrite E in E'. injection E' as <- <-.
  simpl. conjs; try easy.
  exists e, fwd, rest. conjs.
  - exact Hl.
  - rewrite Hq', Hq, <- app_assoc. reflexivity.
  - apply error_line_marker.
Qed.

(** C9.  On every path, also when the spawn raises, the [finally] block
    calls [notify] once, with the title [Download Complete]. *)
Theorem notification_attempted_on_every_path args post_hook w :
  notify_calls (snd (_run_yt_dlp env args post_hook w))
  = notify_calls w ++ [("Download Complete", notification_message args)].
Proof.
  destruct (run_final args post_hook w)
    as (r & w1 & w' & _ & -> & _ & _ & _ & Hn).
  exact Hn.
Qed.

(** C10.  Every call of the runner returns, and leaves
    [current_process] at [None], whether the body returned or raised. *)
Theorem current_process_reset_on_every_path args post_hook w :
  fst (_run_yt_dlp env args post_hook w) = Returns tt
  /\ current_process (snd (_run_yt_dlp env args post_hook w)) = None.
Proof.
  destruct (run_final args post_hook w)
    as (r & w1 & w' & _ & -> & Hp & _).
  split; [reflexivity | exact Hp].
Qed.

(** The [finally] block leaves the same state, the record of delivered
    notifications apart, whatever the notification service does. *)
Lemma run_cleanup_any_service f args post_hook w :
  fst (run_cleanup (with_notify_error f env) args post_hook w)
  = fst (run_cleanup env args post_hook w)
  /\ forget_notified (snd (run_cleanup (with_notify_error f env)
                             args post_hook w))
     = forget_notified (snd (run_cleanup env args post_hook w)).
Proof.
  unfold run_cleanup, bind, swallow, try_except, notify, Popen_shell,
    modify, bind.
  destruct (hook_given post_hook) as [cmd|]; simpl;
    [destruct (popen_shell_error env cmd); simpl|];
    destruct (notify_error env _ _); destruct (f _ _); simpl;
    split; reflexivity.
Qed.

(** C6.  When the argument list has at least two elements, the
    notification of the [finally] block carries the title
    [Download Complete] and, as its message, the element of index 1;
    and whatever the notification service does, raising included, the
    runner returns the same and leaves the same queue, log, process
    reference and hooks. *)
Theorem notification_names_primary_argument args post_hook w f :
  1 < length args ->
  notify_calls (snd (_run_yt_dlp env args post_hook w))
  = notify_calls w ++ [("Download Complete", nth 1 args EmptyString)]
  /\ fst (_run_yt_dlp (with_notify_error f env) args post_hook w)
     = fst (_run_yt_dlp env args post_hook w)
  /\ forget_notified
       (snd (_run_yt_dlp (with_notify_error f env) args post_hook w))
     = forget_notified (snd (_run_yt_dlp env args post_hook w)).
Proof.
  intros Hlen. split.
  - destruct (run_final args post_hook w)
      as (r & w1 & w' & _ & -> & _ & _ & _ & Hn).
    simpl. rewrite Hn.
    destruct args as [|a0 [|a1 rest]]; simpl in Hlen; try lia.
    reflexivity.
  - destruct (run_body env args w) as [r w1] eqn:E.
    assert (E' : run_body (with_notify_error f env) args w = (r, w1))
      by exact E.
    rewrite (run_unfold env args post_hook w r w1 E).
    rewrite (run_unfold _ args post_hook w r w1 E').
    simpl. split; [reflexivity|].
    apply run_cleanup_any_service.
Qed.
End RunnerClaims.

(* ===================================================================== *)
(** * Properties of the pump and of the preferences *)
(* ===================================================================== *)

Section PumpClaims.
Import PyStr Pump.

(** A pump on an empty queue changes the timers, the identifier counter
    and [pump_id], and nothing else. *)
Lemma pump_queue_empty w :
  q w = [] ->
  pump_queue w
  = {| q := []; output_box := output_box w;
       timers := timers w ++ [(next_after_id w, (100, cb_pump_queue))];
       next_after_id := S (next_after_id w);
       pump_id := Some (next_after_id w) |}.
Proof. intros H. unfold pump_queue, after. simpl. now rewrite H. Qed.

Lemma pump_queue_iter_empty w n :
  q w = [] ->
  q (Nat.iter n pump_queue w) = []
  /\ output_box (Nat.iter n pump_queue w) = output_box w.
Proof.
  intros H. induction n as [|n [IHq IHb]].
  - now split.
  - rewrite Nat.iter_succ, (pump_queue_empty _ IHq). simpl. now split.
Qed.

(** On a view that is disabled, as the program keeps it, the pump
    appends the queued lines in order and leaves the view disabled,
    scrolled to its end. *)
Lemma drain_disabled pending : forall b,
  state b = disabled ->
  drain pending b
  = match pending with
    | [] => b
    | _ => {| state := disabled; text := (text b ++ join pending)%string;
              view_end := String.length (text b ++ join pending) |}
    end.
Proof.
  induction pending as [|line rest IH]; intros b Hb; [reflexivity|].
  simpl drain. rewrite IH by reflexivity.
  unfold show_line, configure, see_end, insert_end. simpl.
  destruct rest as [|l2 rest]; simpl.
  - now rewrite append_empty_r.
  - now rewrite <- !append_assoc.
Qed.

(** C8.  A pump that finds the Line Queue empty leaves the log view as
    it is (state, text and scroll position), leaves the queue empty, and
    registers itself once more with a delay of 100 ms; so does any
    number of such pumps in a row. *)
Theorem pump_on_empty_queue_leaves_view w :
  q w = [] ->
  output_box (pump_queue w) = output_box w
  /\ q (pump_queue w) = []
  /\ timers (pump_queue w)
     = timers w ++ [(next_after_id w, (100, cb_pump_queue))]
  /\ pump_id (pump_queue w) = Some (next_after_id w)
  /\ forall n, output_box (Nat.iter n pump_queue w) = output_box w.
Proof.
  intros H. rewrite (pump_queue_empty w H). simpl. conjs; try reflexivity.
  intros n. now apply pump_queue_iter_empty.
Qed.
End PumpClaims.

Section PrefsClaims.
Import Prefs.

(** C7.  When opening the preferences file, reading it or parsing its
    text raises, [prefs] is the empty object, and the start-up goes on
    with it: the preset menu gets its default entry. *)
Theorem prefs_default_on_failure env :
  load_fails env = true ->
  prefs env = JObject []
  /\ preset_values (prefs env) = inr ["Default"].
Proof.
  unfold load_fails, prefs, read_prefs, json_load.
  destruct (open_prefs env) as [e|[e|txt]]; intros H;
    try (split; reflexivity).
  destruct (json_loads env txt); [split; reflexivity | discriminate].
Qed.

(** A file that loads is kept as it is. *)
Lemma prefs_loaded env txt v :
  open_prefs env = inr (inr txt) -> json_loads env txt = inr v ->
  prefs env = v.
Proof.
  intros Ho Hl. unfold prefs, read_prefs, json_load. now rewrite Ho, Hl.
Qed.
End PrefsClaims.

(* ===================================================================== *)
(** * Properties of the argument builder *)
(* ===================================================================== *)

Section BuilderFacts.
Import PyStr Eff Builder.

Variable env : ui_env.
Variable fm : form.

(** One turn: nothing for an empty line, a [Skipped] line for a URL the
    gate refuses, a thread otherwise. *)
Lemma download_one_spec dir i url w :
  download_one env fm dir i url w
  = (Returns tt,
     {| q := q w ++ (if negb (is_empty url) && refused env dir i url
                     then [skipped_line url] else []);
        threads := threads w
                   ++ (if is_empty url || refused env dir i url then []
                       else [(job_args env fm dir url, None)]) |}).
Proof.
  unfold download_one, refused, q_put, threaded_yt_dlp, modify, ret.
  destruct w as [qw tw].
  destruct (is_empty url); simpl.
  { now rewrite !app_nil_r. }
  destruct (get_expected_filename env i url dir) as [p|];
    simpl; [|now rewrite app_nil_r].
  destruct (truthy p && os_path_exists env i p); simpl;
    [|now rewrite app_nil_r].
  destruct (ask_overwrite env i p); simpl; now rewrite app_nil_r.
Qed.

(** The loop: a thread for each kept line and a [Skipped] line for each
    refused one, in the order of the lines. *)
Lemma for_url_in_spec dir urls : forall i w,
  for_url_in env fm dir i urls w
  = (Returns tt,
     {| q := q w ++ map skipped_line (refused_urls env dir i urls);
        threads := threads w
                   ++ map (fun u => (job_args env fm dir u, None))
                        (kept_urls env dir i urls) |}).
Proof.
  induction urls as [|url rest IH]; intros i w.
  - simpl. unfold ret. destruct w. simpl. now rewrite !app_nil_r.
  - simpl. unfold bind. rewrite download_one_spec, IH. simpl.
    destruct (is_empty url); simpl.
    + now rewrite !app_nil_r.
    + destruct (refused env dir i url); simpl;
        rewrite <- ?app_assoc; simpl; now rewrite ?app_nil_r.
Qed.

(** The state a press of the button leaves, and how it ends. *)
Lemma start_download_spec w :
  start_download env fm w
  = match folder env fm with
    | inr dir =>
        (Returns tt,
         {| q := q w ++ map skipped_line
                           (refused_urls env dir 0 (url_lines fm));
            threads := threads w
                       ++ map (fun u => (job_args env fm dir u, None))
                            (kept_urls env dir 0 (url_lines fm)) |})
    | inl e => (Raises e, w)
    end.
Proof.
  unfold start_download. destruct (folder env fm) as [e|dir].
  - reflexivity.
  - now rewrite for_url_in_spec.
Qed.

(** The jobs of one press of the button. *)
Lemma jobs_built_spec : jobs_built env fm = jobs_for_folder env fm.
Proof.
  unfold jobs_built, jobs_for_folder. rewrite start_download_spec.
  destruct (folder env fm) as [e|dir]; simpl; [reflexivity|].
  now rewrite map_map.
Qed.

(** A job that was built: the folder was determined, and the job is
    that of a kept line. *)
Lemma jobs_built_in args :
  In args (jobs_built env fm) ->
  exists dir url,
    folder env fm = inr dir
    /\ In url (kept_urls env dir 0 (url_lines fm))
    /\ args = job_args env fm dir url.
Proof.
  rewrite jobs_built_spec. unfold jobs_for_folder.
  destruct (folder env fm) as [e|dir]; simpl; [tauto|].
  intros H. apply in_map_iff in H as (url & <- & Hk).
  now exists dir, url.
Qed.

Lemma kept_urls_in dir urls : forall i u,
  In u (kept_urls env dir i urls) -> In u urls /\ is_empty u = false.
Proof.
  induction urls as [|url rest IH]; intros i u; simpl; [tauto|].
  destruct (is_empty url) eqn:E; simpl.
  - intros H. apply IH in H. tauto.
  - destruct (refused env dir i url).
    + intros H. apply IH in H. tauto.
    + intros [<-|H]; [tauto|]. apply IH in H. tauto.
Qed.

(** When no overwrite is refused, the kept lines are the lines that
    are not empty. *)
Lemma kept_urls_none_refused dir urls : forall i,
  (forall j u, refused env dir j u = false) ->
  kept_urls env dir i urls = filter (fun u => negb (is_empty u)) urls.
Proof.
  intros i H. revert i.
  induction urls as [|url rest IH]; intros i; simpl; [reflexivity|].
  rewrite H, orb_false_r, IH. now destruct (is_empty url).
Qed.

(** The flags the builder adds after the folder, audio-only set. *)
Lemma job_args_audio dir url :
  audio_var fm = true ->
  job_args env fm dir url
  = [yt_dlp_exe env; url; "-P"; dir;
     "-x"; "--audio-format"; "mp3"]
    ++ subs_args fm ++ net_args fm ++ rename_args fm.
Proof.
  intros H. unfold job_args, format_args. rewrite H.
  rewrite <- !app_assoc. reflexivity.
Qed.

(** No [-f] among the subtitle and SponsorBlock arguments. *)
Lemma subs_args_no_f : ~ In "-f" (subs_args fm).
Proof.
  unfold subs_args. intros H. apply in_app_or in H as [H|H].
  - destruct (truthy (subs_var fm)); simpl in H; [|tauto].
    destruct H as [H|[H|[]]]; discriminate H.
  - destruct (sponsor_var fm); simpl in H; [|tauto].
    destruct H as [H|[H|[]]]; discriminate H.
Qed.

(** A [-f] among the rate, proxy and template arguments is the text of
    one of these fields. *)
Lemma net_args_f :
  In "-f" (net_args fm) ->
  strip (rate_entry fm) = "-f" \/ strip (proxy_entry fm) = "-f".
Proof.
  unfold net_args. intros H. apply in_app_or in H as [H|H].
  - destruct (truthy (strip (rate_entry fm))); simpl in H; [|tauto].
    destruct H as [H|[H|[]]]; [discriminate H | now left].
  - destruct (truthy (strip (proxy_entry fm))); simpl in H; [|tauto].
    destruct H as [H|[H|[]]]; [discriminate H | now right].
Qed.

Lemma f_in_net_args_rate :
  strip (rate_entry fm) = "-f" -> In "-f" (net_args fm).
Proof.
  unfold net_args. intros ->. simpl. right. now left.
Qed.

Lemma f_in_net_args_proxy :
  strip (proxy_entry fm) = "-f" -> In "-f" (net_args fm).
Proof.
  unfold net_args. intros ->. apply in_or_app. right.
  simpl. right. now left.
Qed.

Lemma f_in_rename_args :
  strip (rename_entry fm) = "-f" -> In "-f" (rename_args fm).
Proof.
  unfold rename_args. intros ->. simpl. right. now left.
Qed.

Lemma rename_args_f :
  In "-f" (rename_args fm) -> strip (rename_entry fm) = "-f".
Proof.
  unfold rename_args.
  destruct (truthy (strip (rename_entry fm))); simpl; [|tauto].
  intros [H|[H|[]]]; [discriminate H | exact H].
Qed.
End BuilderFacts.

Section BuilderClaims.
Import PyStr Eff Builder.

Lemma folder_same_cwd e1 e2 fm :
  os_getcwd e1 = os_getcwd e2 -> folder e1 fm = folder e2 fm.
Proof. intros H. unfold folder. now rewrite H. Qed.

Lemma job_args_same_paths e1 e2 fm dir url :
  yt_dlp_exe e1 = yt_dlp_exe e2 ->
  job_args e1 fm dir url = job_args e2 fm dir url.
Proof. intros Hx. unfold job_args. now rewrite Hx. Qed.

Lemma kept_urls_same_gate e1 e2 dir urls : forall i,
  (forall j u, refused e1 dir j u = refused e2 dir j u) ->
  kept_urls e1 dir i urls = kept_urls e2 dir i urls.
Proof.
  intros i H. revert i.
  induction urls as [|url rest IH]; intros i; simpl; [reflexivity|].
  now rewrite H, IH.
Qed.

(** C3, as amended.  With the audio-only flag set, every argument list
    built is the executable, a URL line, [-P], the folder, then [-x],
    [--audio-format], [mp3], then the optional arguments.  The builder
    adds no [-f] of its own: the list holds [-f] exactly when one of the
    texts copied into it from outside (the executable path, the URL line
    of the job, the folder, the rate, the proxy, the template) is itself
    [-f]. *)
Theorem audio_only_args env fm args :
  audio_var fm = true ->
  In args (jobs_built env fm) ->
  exists dir url,
    folder env fm = inr dir
    /\ In url (splitlines (strip (url_text fm)))
    /\ args = [yt_dlp_exe env; url; "-P"; dir;
               "-x"; "--audio-format"; "mp3"]
              ++ subs_args fm ++ net_args fm ++ rename_args fm
    /\ (In "-f" args <-> In "-f" (copied_texts env fm dir url)).
Proof.
  intros Ha Hin.
  apply jobs_built_in in Hin as (dir & url & Hd & Hk & ->).
  apply kept_urls_in in Hk as [Hu _].
  exists dir, url. split; [exact Hd|]. split; [exact Hu|].
  rewrite (job_args_audio env fm dir url Ha).
  split; [reflexivity|].
  unfold copied_texts. split.
  - intros H. apply in_app_or in H as [H|H].
    + simpl in H.
      destruct H as [H|[H|[H|[H|[H|[H|[H|[]]]]]]]];
        try discriminate H; simpl; tauto.
    + apply in_app_or in H as [H|H];
        [now apply (subs_args_no_f fm) in H|].
      apply in_app_or in H as [H|H].
      * apply net_args_f in H. simpl. tauto.
      * apply rename_args_f in H. simpl. tauto.
  - intros H. simpl in H.
    destruct H as [H|[H|[H|[H|[H|[H|[]]]]]]].
    + rewrite H. now left.
    + rewrite H. right. now left.
    + rewrite H. do 3 right. now left.
    + apply in_or_app. right. apply in_or_app. right.
      apply in_or_app. left. now apply f_in_net_args_rate.
    + apply in_or_app. right. apply in_or_app. right.
      apply in_or_app. left. now apply f_in_net_args_proxy.
    + apply in_or_app. right. apply in_or_app. right.
      apply in_or_app. right. now apply f_in_rename_args.
Qed.


(** C5, as amended.  Each argument list built is [job_args] of the
    form, the executable path, the folder (the current directory when
    the entry is blank) and one URL line; which lines get one is decided
    by the overwrite gate, and each line the gate refuses puts a
    [Skipped] line on the queue.  Two presses with the same form, in
    worlds with the same executable path and current directory in which
    the gate gives the same verdicts, build the same argument lists. *)
Theorem jobs_determined_by_form_and_gate e1 e2 fm w :
  yt_dlp_exe e1 = yt_dlp_exe e2 -> os_getcwd e1 = os_getcwd e2 ->
  (forall dir, folder e1 fm = inr dir ->
   forall i url, refused e1 dir i url = refused e2 dir i url) ->
  jobs_built e1 fm = jobs_built e2 fm
  /\ jobs_built e1 fm
     = match folder e1 fm with
       | inr dir =>
           map (job_args e1 fm dir)
             (kept_urls e1 dir 0 (splitlines (strip (url_text fm))))
       | inl _ => []
       end
  /\ q (snd (start_download e1 fm w))
     = q w ++ match folder e1 fm with
              | inr dir =>
                  map skipped_line
                    (refused_urls e1 dir 0
                       (splitlines (strip (url_text fm))))
              | inl _ => []
              end.
Proof.
  intros Hx Hc Hg. conjs.
  - rewrite !jobs_built_spec. unfold jobs_for_folder.
    rewrite <- (folder_same_cwd e1 e2 fm Hc).
    destruct (folder e1 fm) as [e|dir]; [reflexivity|].
    rewrite (kept_urls_same_gate e1 e2 dir _ 0 (Hg dir eq_refl)).
    apply map_ext. intros u. now apply job_args_same_paths.
  - apply jobs_built_spec.
  - rewrite start_download_spec.
    destruct (folder e1 fm); simpl; [now rewrite app_nil_r | reflexivity].
Qed.
End BuilderClaims.

(* ===================================================================== *)
(** * The statements on the sample runs *)
(* ===================================================================== *)

Section OnSamples.
Import PyStr Eff Samples.

(** The whole run of a job whose executable is missing: one error line,
    no process left, the notification attempted (and lost). *)
Example run_without_executable :
  Runner._run_yt_dlp env_no_exe sample_args None fresh_world
  = (Returns tt,
     {| Runner.q :=
          [Runner.error_line
             (Exc "[Errno 2] No such file or directory: 'yt-dlp.exe'")];
        Runner.log_text := EmptyString;
        Runner.current_process := None;
        Runner.hooks_started := [];
        Runner.notify_calls :=
          [("Download Complete", "https://example.org/watch?v=1")];
        Runner.notified := [] |}).
Proof. reflexivity. Qed.

Lemma run_forwards_lines_in_order_witness :
  Runner.q (snd (Runner._run_yt_dlp env_clean sample_args None fresh_world))
  = sample_lines
  /\ Runner.log_text
       (snd (Runner._run_yt_dlp env_clean sample_args None fresh_world))
     = join sample_lines.
Proof.
  destruct (run_forwards_lines_in_order env_clean sample_args None
              sample_lines fresh_world) as (_ & Hq & Hl).
  - exists quiet_child. repeat split; reflexivity.
  - repeat split; reflexivity.
  - split; [exact Hq | exact Hl].
Defined.

Lemma run_turns_exception_into_one_error_line_witness :
  Runner.spawn_or_read_raises env_no_exe sample_args = true
  /\ fst (Runner._run_yt_dlp env_no_exe sample_args None fresh_world)
     = Returns tt
  /\ Runner.current_process
       (snd (Runner._run_yt_dlp env_no_exe sample_args None fresh_world))
     = None.
Proof.
  split; [reflexivity|].
  destruct (run_turns_exception_into_one_error_line env_no_exe sample_args
              None fresh_world) as (Hr & Hp & _).
  - reflexivity.
  - split; [exact Hr | exact Hp].
Defined.

Lemma notification_names_primary_argument_witness :
  1 < length sample_args
  /\ Runner.notify_calls
       (snd (Runner._run_yt_dlp env_clean sample_args None fresh_world))
     = [("Download Complete", "https://example.org/watch?v=1")].
Proof.
  assert (H : 1 < length sample_args) by (simpl; lia).
  split; [exact H|].
  exact (proj1 (notification_names_primary_argument env_clean sample_args
                  None fresh_world (fun _ _ => None) H)).
Defined.

Lemma prefs_default_on_failure_witness :
  Prefs.load_fails env_no_prefs = true
  /\ Prefs.prefs env_no_prefs = Prefs.JObject [].
Proof.
  split; [reflexivity|].
  exact (proj1 (prefs_default_on_failure env_no_prefs eq_refl)).
Defined.

Lemma pump_on_empty_queue_leaves_view_witness :
  Pump.q quiet_gui = []
  /\ Pump.output_box (Pump.pump_queue quiet_gui) = Pump.output_box quiet_gui.
Proof.
  split; [reflexivity|].
  exact (proj1 (pump_on_empty_queue_leaves_view quiet_gui eq_refl)).
Defined.

(** C3 as stated fails: with [-f] typed in the URL box and the
    audio-only flag set, the one argument list built holds [-f], as the
    URL line.  (The probe of such a line fails, so nothing is asked.) *)
Lemma audio_only_dash_f_counterexample :
  Builder.audio_var form_dash_f = true
  /\ Builder.jobs_built env_probe_fails form_dash_f
     = [["yt-dlp.exe"; "-f"; "-P"; "/home/u/Videos";
         "-x"; "--audio-format"; "mp3"]]
  /\ In "-f" (nth 0 (Builder.jobs_built env_probe_fails form_dash_f) []).
Proof.
  split; [reflexivity|]. split; [reflexivity|].
  vm_compute. right. left. reflexivity.
Qed.

Lemma audio_only_args_witness :
  Builder.audio_var form_two_urls = true
  /\ In (Builder.job_args env_fresh form_two_urls "/home/u/Videos" url_a)
        (Builder.jobs_built env_fresh form_two_urls)
  /\ ~ In "-f" (Builder.job_args env_fresh form_two_urls "/home/u/Videos" url_a).
Proof.
  assert (Hin : In (Builder.job_args env_fresh form_two_urls "/home/u/Videos" url_a)
                  (Builder.jobs_built env_fresh form_two_urls))
    by (left; reflexivity).
  split; [reflexivity|]. split; [exact Hin|].
  destruct (audio_only_args env_fresh form_two_urls _ eq_refl Hin)
    as (dir & url & Hd & Hu & Hargs & Hf).
  intros H. apply Hf in H.
  injection Hd as Hdir. injection Hargs as Hurl. subst dir url.
  vm_compute in H.
  repeat (destruct H as [H|H]; [discriminate H|]). exact H.
Defined.



(** C5 as stated fails: the same form gives two argument lists in one
    world and one in another, where it also puts a line on the queue. *)
Lemma same_form_different_jobs_counterexample :
  Builder.jobs_built env_fresh form_two_urls
  = [Builder.job_args env_fresh form_two_urls "/home/u/Videos" url_a;
     Builder.job_args env_fresh form_two_urls "/home/u/Videos" url_b]
  /\ Builder.jobs_built env_declines_first form_two_urls
     = [Builder.job_args env_fresh form_two_urls "/home/u/Videos" url_b]
  /\ Builder.jobs_built env_fresh form_two_urls
     <> Builder.jobs_built env_declines_first form_two_urls
  /\ Builder.q (snd (Builder.start_download env_declines_first
                       form_two_urls Builder.idle))
     = [Builder.skipped_line url_a].
Proof.
  split; [reflexivity|]. split; [reflexivity|].
  split; [|reflexivity].
  vm_compute. discriminate.
Qed.

Lemma jobs_determined_by_form_and_gate_witness :
  (forall dir, Builder.folder env_fresh form_two_urls = inr dir ->
   forall i url,
     Builder.refused env_fresh dir i url
     = Builder.refused env_probe_fails dir i url)
  /\ Builder.jobs_built env_fresh form_two_urls
     = Builder.jobs_built env_probe_fails form_two_urls.
Proof.
  assert (Hg : forall dir,
             Builder.folder env_fresh form_two_urls = inr dir ->
             forall i url,
               Builder.refused env_fresh dir i url
               = Builder.refused env_probe_fails dir i url).
  { intros dir Hd i url. vm_compute in Hd. injection Hd as <-.
    reflexivity. }
  split; [exact Hg|].
  exact (proj1 (jobs_determined_by_form_and_gate env_fresh env_probe_fails
                  form_two_urls Builder.idle eq_refl eq_refl Hg)).
Defined.
End OnSamples.

(* ===================================================================== *)
(** * More on the job runner *)
(* ===================================================================== *)

Section RunnerMore.
Import PyStr Eff Runner.

Variable env : os_env.

Lemma cut_log_app base x :
  cut_log env base (base ++ x)
  = (base ++ string_take (log_cut env) x)%string.
Proof. unfold cut_log. now rewrite string_drop_app. Qed.

Lemma cut_log_base base : cut_log env base base = base.
Proof.
  pose proof (cut_log_app base EmptyString) as H.
  rewrite append_empty_r in H. rewrite H.
  destruct (log_cut env); simpl; apply append_empty_r.
Qed.

(** The loop, with the log.  While the handle [lg] is written, the log
    holds [lg] and a beginning of the text of the lines put on the
    queue: all of it when the loop returns. *)
Lemma for_line_in_log lg lines stdout_end :
  forall i w written,
    log_text w = (lg ++ written)%string ->
    exists r w' fwd rest p tail,
      for_line_in i lines stdout_end (forward env lg) w = (r, w')
      /\ lines = fwd ++ rest
      /\ q w' = q w ++ fwd
      /\ log_text w' = (lg ++ p)%string
      /\ (written ++ join fwd)%string = (p ++ tail)%string
      /\ (r = Returns tt -> rest = [] /\ tail = EmptyString).
Proof.
  induction lines as [|line more IH]; intros i w written Hw.
  - simpl. destruct stdout_end as [e|].
    + exists (Raises e), w, [], [], written, EmptyString. simpl.
      rewrite app_nil_r. now conjs.
    + exists (Returns tt), w, [], [], written, EmptyString. simpl.
      rewrite app_nil_r. now conjs.
  - simpl. unfold forward at 1, bind, q_put, lg_write, modify.
    destruct (log_write_error env i) as [e|].
    + eexists (Raises e), _, [line], more,
        (string_take (log_cut env) (written ++ line)),
        (string_drop (log_cut env) (written ++ line)).
      unfold bind, modify, raise. simpl. conjs; try reflexivity.
      * simpl. rewrite Hw, <- append_assoc. apply cut_log_app.
      * simpl. rewrite append_empty_r. symmetry. apply string_take_drop.
      * discriminate.
    + destruct (IH (S i) (set_log_text (fun t => (t ++ line)%string)
                            (set_q (fun l => l ++ [line]) w))
                  (written ++ line)%string)
        as (r & w' & fwd & rest & p & tail & E & Hl & Hq & Hlog & Hp & Hr).
      { simpl. rewrite Hw. symmetry. apply append_assoc. }
      exists r, w', (line :: fwd), rest, p, tail.
      rewrite E. simpl in Hq. conjs; try assumption.
      * reflexivity.
      * simpl. now rewrite Hl.
      * rewrite Hq, <- app_assoc. reflexivity.
      * simpl. rewrite append_assoc. exact Hp.
Qed.

(** The loop when the stream ends with an exception and every write
    succeeds: every line is forwarded, then the exception is raised. *)
Lemma for_line_in_read_fails lg lines e :
  (forall i, log_write_error env i = None) ->
  forall i w, exists w',
    for_line_in i lines (Some e) (forward env lg) w = (Raises e, w')
    /\ q w' = q w ++ lines
    /\ log_text w' = (log_text w ++ join lines)%string.
Proof.
  intros Hw. induction lines as [|line rest IH]; intros i w.
  - exists w. simpl. rewrite app_nil_r, append_empty_r. now conjs.
  - simpl. unfold forward at 1, bind, q_put, lg_write, modify.
    rewrite Hw.
    destruct (IH (S i) (set_log_text (fun t => (t ++ line)%string)
                          (set_q (fun l => l ++ [line]) w)))
      as (w' & E & Hq & Hl).
    exists w'. rewrite E. simpl in Hq, Hl. conjs.
    + reflexivity.
    + rewrite Hq, <- app_assoc. reflexivity.
    + rewrite Hl. simpl. symmetry. apply append_assoc.
Qed.

(** The loop when the write of the line of index [k] is the first that
    raises: the lines up to that one are on the queue, the rest is not
    read, and the disk holds what the buffer let through of the text of
    the lines up to that one. *)
Lemma for_line_in_write_fails lg stdout_end e :
  forall k lines i w,
    (forall j, j < k -> log_write_error env (i + j) = None) ->
    log_write_error env (i + k) = Some e ->
    k < length lines ->
    exists w',
      for_line_in i lines stdout_end (forward env lg) w = (Raises e, w')
      /\ q w' = q w ++ firstn (S k) lines
      /\ log_text w'
         = cut_log env lg (log_text w ++ join (firstn (S k) lines)).
Proof.
  induction k as [|k IH]; intros lines i w Hok Hbad Hlen;
    destruct lines as [|line rest]; simpl in Hlen; try lia.
  - simpl. unfold forward at 1, bind, q_put, lg_write, modify.
    rewrite Nat.add_0_r in Hbad. rewrite Hbad.
    unfold bind, modify, raise. simpl.
    eexists. conjs; try reflexivity. simpl. now rewrite append_empty_r.
  - simpl for_line_in. unfold forward at 1, bind, q_put, lg_write, modify.
    pose proof (Hok 0 ltac:(lia)) as H0. rewrite Nat.add_0_r in H0.
    rewrite H0.
    destruct (IH rest (S i)
                (set_log_text (fun t => (t ++ line)%string)
                   (set_q (fun l => l ++ [line]) w)))
      as (w' & E & Hq & Hl).
    + intros j Hj. replace (S i + j) with (i + S j) by lia.
      apply Hok. lia.
    + replace (S i + k) with (i + S k) by lia. exact Hbad.
    + lia.
    + exists w'. rewrite E. simpl in Hq, Hl. conjs.
      * reflexivity.
      * rewrite Hq, <- app_assoc. reflexivity.
      * rewrite Hl. f_equal. simpl. symmetry. apply append_assoc.
Qed.

(** What the [finally] block does to the hooks and to the delivered
    notifications. *)
Lemma run_cleanup_effects args post_hook w :
  hooks_started (snd (run_cleanup env args post_hook w))
  = hooks_started w ++ hook_launched env post_hook
  /\ notified (snd (run_cleanup env args post_hook w))
     = notified w ++ delivered env args.
Proof.
  unfold run_cleanup, hook_launched, delivered, bind, swallow, try_except,
    notify, Popen_shell, modify, bind.
  destruct (hook_given post_hook) as [cmd|]; simpl;
    [destruct (popen_shell_error env cmd); simpl|];
    destruct (notify_error env _ _); simpl;
    rewrite ?app_nil_r; split; reflexivity.
Qed.

(** The body of the [try] starts no hook and delivers nothing. *)
Lemma run_body_handles args w :
  hooks_started (snd (run_body env args w)) = hooks_started w
  /\ notified (snd (run_body env args w)) = notified w.
Proof.
  unfold run_body, with_open_log, bind, Popen, modify, wait.
  destruct (open_log_error env); [now split|].
  destruct (popen env args) as [e|c]; simpl.
  - destruct (log_close_error env); now split.
  - destruct (for_line_in_any env (log_text w) (stdout_lines c)
                (stdout_error c) 0
                (set_current_process (Some c) w))
      as (r & w' & fwd & rest & E & _ & _ & (_ & Hh & _ & Hn) & _).
    rewrite E. destruct r as [[]|e].
    + destruct (wait_error c); destruct (log_close_error env);
        split; assumption.
    + destruct (log_close_error env); split; assumption.
Qed.

(** The hooks a call leaves. *)
Lemma run_hooks args post_hook w :
  hooks_started (snd (_run_yt_dlp env args post_hook w))
  = hooks_started w ++ hook_launched env post_hook.
Proof.
  destruct (run_body env args w) as [r w1] eqn:Eb.
  rewrite (run_unfold env args post_hook w r w1 Eb). simpl.
  destruct (run_body_handles args w) as [Hh _]. rewrite Eb in Hh.
  simpl in Hh.
  destruct r as [[]|e];
    rewrite (proj1 (run_cleanup_effects args post_hook _));
    simpl; now rewrite Hh.
Qed.

(** The queue and the log a call leaves, from what the body did. *)
Lemma run_queue_log args post_hook w r w1 :
  run_body env args w = (r, w1) ->
  q (snd (_run_yt_dlp env args post_hook w))
  = match r with
    | Returns _ => q w1
    | Raises e => q w1 ++ [error_line e]
    end
  /\ log_text (snd (_run_yt_dlp env args post_hook w)) = log_text w1.
Proof.
  intros E.
  destruct (run_final env args post_hook w)
    as (r' & w1' & w' & E' & -> & _ & Hq & Hl & _).
  rewrite E in E'. injection E' as <- <-. simpl. now split.
Qed.
End RunnerMore.

Section RunnerExtras.
Import PyStr Eff Runner.

Variable env : os_env.

(** X1.  When the read of the child's output raises after the lines
    [stdout_lines c], with the log writable, nothing that was read is
    lost: the queue gains every line, then the one error line made from
    the exception of the read, and the log gains every line. *)
Theorem read_error_keeps_every_line args post_hook w c e :
  popen env args = inr c -> stdout_error c = Some e -> log_writable env ->
  q (snd (_run_yt_dlp env args post_hook w))
  = q w ++ stdout_lines c ++ [error_line e]
  /\ log_text (snd (_run_yt_dlp env args post_hook w))
     = (log_text w ++ join (stdout_lines c))%string.
Proof.
  intros Hp He (Ho & Hw & Hc).
  destruct (for_line_in_read_fails env (log_text w) (stdout_lines c) e Hw 0
              (set_current_process (Some c) w)) as (w' & E & Hq & Hl).
  assert (Eb : run_body env args w = (Raises e, w')).
  { unfold run_body, with_open_log, bind, Popen, modify.
    rewrite Ho, Hp. simpl. rewrite He, E, Hc. reflexivity. }
  destruct (run_queue_log env args post_hook w _ _ Eb) as [-> ->].
  simpl in Hq, Hl. split; [|exact Hl].
  rewrite Hq, <- app_assoc. reflexivity.
Qed.

(** X2.  When the write of the line of index [k] is the first write to
    the log that raises (and the close succeeds), the runner stops
    reading: the queue holds the lines up to that one and the error
    line, the lines after it are dropped, and the log, whose file is
    buffered, has gained the first [log_cut] characters only of the text
    of the lines up to that one: it may end inside a line. *)
Theorem log_write_failure_stops_reading args post_hook w c k e :
  popen env args = inr c ->
  open_log_error env = None -> log_close_error env = None ->
  first_write_failure env k e -> k < length (stdout_lines c) ->
  q (snd (_run_yt_dlp env args post_hook w))
  = q w ++ firstn (S k) (stdout_lines c) ++ [error_line e]
  /\ log_text (snd (_run_yt_dlp env args post_hook w))
     = (log_text w
        ++ string_take (log_cut env)
             (join (firstn (S k) (stdout_lines c))))%string.
Proof.
  intros Hp Ho Hc (Hok & Hbad) Hlen.
  destruct (for_line_in_write_fails env (log_text w) (stdout_error c) e k
              (stdout_lines c) 0 (set_current_process (Some c) w))
    as (w' & E & Hq & Hl); try assumption.
  assert (Eb : run_body env args w = (Raises e, w')).
  { unfold run_body, with_open_log, bind, Popen, modify.
    rewrite Ho, Hp. simpl. rewrite E, Hc. reflexivity. }
  destruct (run_queue_log env args post_hook w _ _ Eb) as [-> ->].
  simpl in Hq, Hl. split.
  - rewrite Hq, <- app_assoc. reflexivity.
  - rewrite Hl. apply cut_log_app.
Qed.

(** X3.  On every path the queue and the log only grow, and the log is
    never ahead of the queue: the queue gains a prefix [fwd] of the
    child's lines and then at most one error line; the log gains a
    beginning [p] of the text of [fwd] (the file is buffered, so [p] may
    end inside a line); and when no error line is put, every line of the
    child is on the queue and the whole of their text is in the log. *)
Theorem log_never_ahead_of_queue args post_hook w :
  exists fwd rest tail p more,
    child_lines env args = fwd ++ rest
    /\ q (snd (_run_yt_dlp env args post_hook w)) = q w ++ fwd ++ tail
    /\ log_text (snd (_run_yt_dlp env args post_hook w))
       = (log_text w ++ p)%string
    /\ join fwd = (p ++ more)%string
    /\ ((tail = [] /\ rest = [] /\ more = EmptyString)
        \/ exists e, tail = [error_line e]).
Proof.
  destruct (run_body env args w) as [r w1] eqn:Eb.
  destruct (run_queue_log env args post_hook w r w1 Eb) as [-> ->].
  assert (Hbody : exists fwd rest p more,
             child_lines env args = fwd ++ rest
             /\ q w1 = q w ++ fwd
             /\ log_text w1 = (log_text w ++ p)%string
             /\ join fwd = (p ++ more)%string
             /\ (r = Returns tt -> rest = [] /\ more = EmptyString)).
  { revert Eb.
    unfold child_lines, run_body, with_open_log, bind, Popen, modify.
    destruct (open_log_error env) as [eo|].
    { intros [= <- <-]. eexists [], _, EmptyString, EmptyString.
      conjs; try reflexivity; rewrite ?app_nil_r, ?append_empty_r;
        easy. }
    destruct (popen env args) as [e|c]; simpl.
    - intros Eb. exists [], [], EmptyString, EmptyString.
      destruct (log_close_error env) as [ec|]; injection Eb as <- <-;
        conjs; try reflexivity; rewrite ?app_nil_r, ?append_empty_r;
        try easy.
      simpl. apply cut_log_base.
    - destruct (for_line_in_log env (log_text w) (stdout_lines c)
                  (stdout_error c) 0 (set_current_process (Some c) w)
                  EmptyString)
        as (r0 & w' & fwd & rest & p & tl & E & Hl & Hq & Hlog & Hp & Hr).
      { simpl. now rewrite append_empty_r. }
      rewrite E. simpl in Hq, Hp. intros Eb.
      assert (Hcut : log_text (set_log_text
                                 (fun t => cut_log env (log_text w) t) w')
                     = (log_text w ++ string_take (log_cut env) p)%string).
      { simpl. rewrite Hlog. apply cut_log_app. }
      assert (Hsplit : join fwd
                       = (string_take (log_cut env) p
                          ++ (string_drop (log_cut env) p ++ tl))%string).
      { now rewrite append_assoc, string_take_drop. }
      destruct r0 as [[]|e0].
      + destruct (Hr eq_refl) as [-> ->]. rewrite append_empty_r in Hp.
        unfold wait in Eb.
        destruct (wait_error c); destruct (log_close_error env);
          injection Eb as <- <-.
        * eexists fwd, [], (string_take (log_cut env) p), _.
          rewrite app_nil_r in *. conjs; try eassumption. discriminate.
        * exists fwd, [], p, EmptyString.
          rewrite app_nil_r in *. rewrite append_empty_r.
          conjs; try easy.
        * eexists fwd, [], (string_take (log_cut env) p), _.
          rewrite app_nil_r in *. conjs; try eassumption. discriminate.
        * exists fwd, [], p, EmptyString.
          rewrite app_nil_r in *. rewrite append_empty_r.
          conjs; try easy.
      + destruct (log_close_error env); injection Eb as <- <-.
        * eexists fwd, rest, (string_take (log_cut env) p), _.
          conjs; try eassumption. discriminate.
        * exists fwd, rest, p, tl. conjs; try easy. }
  destruct Hbody as (fwd & rest & p & more & Hl & Hq & Hlog & Hp & Hr).
  destruct r as [[]|e1].
  - destruct (Hr eq_refl) as [-> ->].
    exists fwd, [], [], p, EmptyString. rewrite !app_nil_r in *.
    conjs; try easy. now left.
  - exists fwd, rest, [error_line e1], p, more.
    conjs; try easy.
    + rewrite Hq, <- app_assoc. reflexivity.
    + right. now exists e1.
Qed.

(** X4.  When the spawn raises (a missing executable) and the log can
    be opened and closed, the queue gains the one line [[ERROR] ] +
    [str(e)] + line feed for the exception of the spawn, and nothing is
    written to the log. *)
Theorem spawn_failure_reports_and_leaves_log args post_hook w e :
  popen env args = inl e ->
  open_log_error env = None -> log_close_error env = None ->
  q (snd (_run_yt_dlp env args post_hook w)) = q w ++ [error_line e]
  /\ log_text (snd (_run_yt_dlp env args post_hook w)) = log_text w.
Proof.
  intros Hp Ho Hc.
  assert (Eb : run_body env args w = (Raises e, w)).
  { unfold run_body, with_open_log, bind, Popen.
    now rewrite Ho, Hp, Hc. }
  destruct (run_queue_log env args post_hook w _ _ Eb) as [-> ->].
  now split.
Qed.

(** X5.  When the log file cannot be opened the child is not spawned at
    all: the call gives the same outcome and state whatever the spawn
    would have done, the queue gains the one error line of the failed
    open, and the log is untouched. *)
Theorem log_open_failure_skips_child args post_hook w e f :
  open_log_error env = Some e ->
  _run_yt_dlp (with_popen f env) args post_hook w
  = _run_yt_dlp env args post_hook w
  /\ q (snd (_run_yt_dlp env args post_hook w)) = q w ++ [error_line e]
  /\ log_text (snd (_run_yt_dlp env args post_hook w)) = log_text w.
Proof.
  intros Ho.
  assert (Eb : run_body env args w = (Raises e, w)).
  { unfold run_body, with_open_log. now rewrite Ho. }
  assert (Eb' : run_body (with_popen f env) args w = (Raises e, w)).
  { unfold run_body, with_open_log. simpl. now rewrite Ho. }
  split.
  - rewrite (run_unfold env args post_hook w _ _ Eb).
    rewrite (run_unfold _ args post_hook w _ _ Eb'). reflexivity.
  - destruct (run_queue_log env args post_hook w _ _ Eb) as [-> ->].
    now split.
Qed.

(** X6.  On every path, after a failure as after a clean job, the
    runner returns, and: a post-hook that is a string that is not empty
    is launched once when the shell starts; nothing is launched when
    launching it raises (the runner swallows the exception), nor when
    the post-hook is [None] or the empty string. *)
Theorem post_hook_on_every_path args post_hook w :
  fst (_run_yt_dlp env args post_hook w) = Returns tt
  /\ (forall cmd,
        post_hook = Some cmd -> cmd <> EmptyString ->
        popen_shell_error env cmd = None ->
        hooks_started (snd (_run_yt_dlp env args post_hook w))
        = hooks_started w ++ [cmd])
  /\ (forall cmd e,
        post_hook = Some cmd -> popen_shell_error env cmd = Some e ->
        hooks_started (snd (_run_yt_dlp env args post_hook w))
        = hooks_started w)
  /\ (post_hook = None \/ post_hook = Some EmptyString ->
      hooks_started (snd (_run_yt_dlp env args post_hook w))
      = hooks_started w).
Proof.
  rewrite run_hooks. conjs.
  - apply run_returns.
  - intros cmd -> Hne Hok. unfold hook_launched, hook_given, truthy.
    destruct cmd as [|c cmd]; [now elim Hne|]. simpl. now rewrite Hok.
  - intros cmd e -> Herr. unfold hook_launched, hook_given.
    destruct (truthy cmd); [now rewrite Herr, app_nil_r|apply app_nil_r].
  - intros [->| ->]; apply app_nil_r.
Qed.

(** X7.  With fewer than two arguments there is no element of index 1
    to name: the notification carries the fixed message [Finished], and
    the look-up raises nothing. *)
Theorem short_args_notify_finished args post_hook w :
  length args <= 1 ->
  fst (_run_yt_dlp env args post_hook w) = Returns tt
  /\ notify_calls (snd (_run_yt_dlp env args post_hook w))
     = notify_calls w ++ [("Download Complete", "Finished")].
Proof.
  intros Hlen.
  destruct (run_final env args post_hook w)
    as (r & w1 & w' & _ & -> & _ & _ & _ & Hn).
  simpl. split; [reflexivity|]. rewrite Hn.
  destruct args as [|a0 [|a1 rest]]; simpl in Hlen; try lia; reflexivity.
Qed.
End RunnerExtras.

(* ===================================================================== *)
(** * More on the pump and on the preferences *)
(* ===================================================================== *)

Section PumpExtras.
Import PyStr Pump.

(** One line shown: the view is enabled for the insert, so the line is
    appended whatever the state was, and the view ends disabled and
    scrolled to its end. *)
Lemma show_line_spec line b :
  show_line line b
  = {| state := disabled; text := (text b ++ line)%string;
       view_end := String.length (text b ++ line) |}.
Proof. reflexivity. Qed.

Lemma drain_text pending : forall b,
  text (drain pending b) = (text b ++ join pending)%string.
Proof.
  induction pending as [|line rest IH]; intros b; simpl.
  - now rewrite append_empty_r.
  - rewrite IH, show_line_spec. simpl. symmetry. apply append_assoc.
Qed.

Lemma drain_state pending : forall b,
  pending <> [] ->
  state (drain pending b) = disabled
  /\ view_end (drain pending b) = String.length (text (drain pending b)).
Proof.
  induction pending as [|line rest IH]; intros b Hne; [now elim Hne|].
  simpl. destruct rest as [|l2 rest].
  - simpl. now split.
  - apply IH. discriminate.
Qed.

(** X8.  A pump empties the Line Queue into the log view: whatever the
    state of the view was, its text gains the queued lines in the order
    they were put, nothing else, and the queue is left empty; when
    something was queued the view ends disabled and scrolled to its
    end. *)
Theorem pump_shows_queue_in_order w :
  q (pump_queue w) = []
  /\ text (output_box (pump_queue w))
     = (text (output_box w) ++ join (q w))%string
  /\ (q w <> [] ->
      state (output_box (pump_queue w)) = disabled
      /\ view_end (output_box (pump_queue w))
         = String.length (text (output_box (pump_queue w)))).
Proof.
  unfold pump_queue, after. simpl. conjs.
  - reflexivity.
  - apply drain_text.
  - intros Hne. now apply drain_state.
Qed.
End PumpExtras.

Section PrefsExtras.
Import Prefs.


(** X11.  The fall-back to the empty object covers a failed load only.
    A preferences file that loads, but whose value is not an object (a
    list, a string, a number, [null]), is kept as it is, and the first
    use of it, the values of the preset menu, raises. *)
Theorem non_object_prefs_break_startup env txt v :
  open_prefs env = inr (inr txt) -> json_loads env txt = inr v ->
  is_object v = false ->
  load_fails env = false
  /\ prefs env = v
  /\ exists e, preset_values (prefs env) = inl e.
Proof.
  intros Ho Hl Hv.
  assert (Hp : prefs env = v).
  { unfold prefs, read_prefs, json_load. now rewrite Ho, Hl. }
  conjs.
  - unfold load_fails. now rewrite Ho, Hl.
  - exact Hp.
  - rewrite Hp. destruct v; try discriminate Hv; simpl; eexists; reflexivity.
Qed.

(** The same when the value is an object whose [presets] is none. *)
Lemma non_object_presets_break_startup fields :
  is_object (dict_get "presets" fields (JObject [])) = false ->
  exists e, preset_values (JObject fields) = inl e.
Proof.
  unfold preset_values.
  destruct (dict_get "presets" fields (JObject [])); try discriminate;
    intros _; eexists; reflexivity.
Qed.
End PrefsExtras.

(* ===================================================================== *)
(** * More on the argument builder *)
(* ===================================================================== *)

Section BuilderMore.
Import PyStr Eff Builder.

Lemma strip_all_space t : all_space t = true -> strip t = EmptyString.
Proof.
  intros H. unfold strip.
  replace (lstrip t) with EmptyString; [reflexivity|].
  induction t as [|c t IH]; simpl; [reflexivity|].
  simpl in H. apply andb_true_iff in H as [Hc Ht]. rewrite Hc. now apply IH.
Qed.

Lemma no_linebreak_app a b :
  no_linebreak (a ++ b) = no_linebreak a && no_linebreak b.
Proof.
  induction a as [|c a IH]; simpl; [reflexivity|].
  now rewrite IH, andb_assoc.
Qed.

(** No line of [splitlines] holds a line boundary. *)
Lemma splitlines_from_no_linebreak s : forall cur after_cr,
  no_linebreak cur = true ->
  Forall (fun l => no_linebreak l = true) (splitlines_from cur after_cr s).
Proof.
  induction s as [|c s IH]; intros cur after_cr Hcur; simpl.
  - destruct (is_empty cur); constructor; [assumption|constructor].
  - destruct (after_cr && Ascii.eqb c LF).
    + now apply IH.
    + destruct (is_linebreak c) eqn:Hb.
      * constructor; [assumption|]. now apply IH.
      * apply IH. rewrite no_linebreak_app, Hcur. simpl. now rewrite Hb.
Qed.

(** Reading a stretch without line boundary adds it to the line
    read. *)
Lemma splitlines_from_stretch u : forall cur rest,
  no_linebreak u = true ->
  splitlines_from cur false (u ++ rest)
  = splitlines_from (cur ++ u) false rest.
Proof.
  induction u as [|c u IH]; intros cur rest H; simpl.
  - now rewrite append_empty_r.
  - simpl in H. apply andb_true_iff in H as [Hc Hu].
    apply negb_true_iff in Hc. rewrite Hc.
    rewrite IH by assumption. now rewrite <- append_assoc.
Qed.

Lemma no_space_no_linebreak u : no_space u = true -> no_linebreak u = true.
Proof.
  induction u as [|c u IH]; simpl; [reflexivity|].
  intros H. apply andb_true_iff in H as [Hc Hu].
  rewrite IH by assumption. rewrite andb_true_r.
  destruct (is_linebreak c) eqn:Hb; [|reflexivity].
  apply linebreak_isspace in Hb. rewrite Hb in Hc. discriminate.
Qed.

(** Two URLs with a line of blanks between them split in three lines,
    the line of blanks among them. *)
Lemma splitlines_blank_between u1 mid u2 :
  is_url u1 = true -> is_url u2 = true ->
  truthy mid = true -> no_linebreak mid = true ->
  splitlines (u1 ++ (nl ++ mid ++ nl) ++ u2) = [u1; mid; u2].
Proof.
  intros H1 H2 Hm Hb. unfold splitlines.
  unfold is_url in H1, H2.
  apply andb_true_iff in H1 as [_ N1].
  apply andb_true_iff in H2 as [E2 N2].
  rewrite splitlines_from_stretch by now apply no_space_no_linebreak.
  simpl. rewrite <- append_assoc.
  rewrite splitlines_from_stretch by assumption. simpl.
  rewrite <- (append_empty_r u2) at 1.
  rewrite splitlines_from_stretch by now apply no_space_no_linebreak.
  simpl. unfold truthy in E2. apply negb_true_iff in E2. now rewrite E2.
Qed.

Lemma splitlines_no_linebreak s l :
  In l (splitlines s) -> no_linebreak l = true.
Proof.
  intros H.
  pose proof (splitlines_from_no_linebreak s EmptyString false eq_refl) as F.
  rewrite Forall_forall in F. now apply F.
Qed.

(** A digit is not the letter [p], nor the letter [B]. *)
Lemma digit_not_p c : is_digit c = true -> Ascii.eqb c "p"%char = false.
Proof.
  destruct c as [[] [] [] [] [] [] [] []]; vm_compute;
    intros H; first [reflexivity | discriminate H].
Qed.

Lemma digit_not_B c : is_digit c = true -> Ascii.eqb c "B"%char = false.
Proof.
  destruct c as [[] [] [] [] [] [] [] []]; vm_compute;
    intros H; first [reflexivity | discriminate H].
Qed.

(** [rstrip("p")] takes the [p] off a number followed by [p]. *)
Lemma rstrip_char_digits_p n :
  all_digits n = true -> rstrip_char "p"%char (n ++ "p") = n.
Proof.
  induction n as [|c n IH]; simpl; [reflexivity|].
  intros H. apply andb_true_iff in H as [Hc Hn].
  rewrite IH by assumption. rewrite (digit_not_p c Hc), andb_false_r.
  reflexivity.
Qed.

Lemma digits_p_not_Best n :
  all_digits n = true -> String.eqb (n ++ "p") "Best" = false.
Proof.
  destruct n as [|c n]; simpl; [reflexivity|].
  intros H. apply andb_true_iff in H as [Hc _].
  now rewrite (digit_not_B c Hc).
Qed.

Variable env : ui_env.
Variable fm : form.

(** Each line that is not empty is kept or refused, not both. *)
Lemma kept_refused_count dir urls : forall i,
  length (kept_urls env dir i urls) + length (refused_urls env dir i urls)
  = length (filter (fun u => negb (is_empty u)) urls).
Proof.
  induction urls as [|url rest IH]; intros i; simpl; [reflexivity|].
  destruct (is_empty url); simpl; [apply IH|].
  destruct (refused env dir i url); simpl; rewrite <- (IH (S i)); lia.
Qed.

(** The four elements every argument list starts with. *)
Lemma job_args_head dir url :
  exists rest,
    job_args env fm dir url
    = yt_dlp_exe env :: url :: "-P" :: dir :: rest.
Proof.
  unfold job_args. rewrite <- !app_assoc. simpl. eexists. reflexivity.
Qed.

(** The argument list in video mode. *)
Lemma job_args_video dir url :
  audio_var fm = false ->
  job_args env fm dir url
  = [yt_dlp_exe env; url; "-P"; dir; "-f";
     (if negb (String.eqb (quality_var fm) "Best")
      then ("bestvideo[height<="
              ++ rstrip_char "p"%char (quality_var fm)
              ++ "]+bestaudio/best")%string
      else "bv*+ba/best")]
    ++ subs_args fm ++ net_args fm ++ rename_args fm.
Proof.
  intros H. unfold job_args, format_args. rewrite H.
  rewrite <- !app_assoc. simpl.
  now destruct (negb (String.eqb (quality_var fm) "Best")).
Qed.

(** No [-x] among the optional arguments unless a field is [-x]. *)
Lemma optional_args_x :
  In "-x" (subs_args fm ++ net_args fm ++ rename_args fm) ->
  strip (rate_entry fm) = "-x" \/ strip (proxy_entry fm) = "-x"
  \/ strip (rename_entry fm) = "-x".
Proof.
  unfold subs_args, net_args, rename_args. intros H.
  repeat (apply in_app_or in H as [H|H]).
  - destruct (truthy (subs_var fm)); simpl in H; [|tauto].
    destruct H as [H|[H|[]]]; discriminate H.
  - destruct (sponsor_var fm); simpl in H; [|tauto].
    destruct H as [H|[H|[]]]; discriminate H.
  - destruct (truthy (strip (rate_entry fm))); simpl in H; [|tauto].
    destruct H as [H|[H|[]]]; [discriminate H | tauto].
  - destruct (truthy (strip (proxy_entry fm))); simpl in H; [|tauto].
    destruct H as [H|[H|[]]]; [discriminate H | tauto].
  - destruct (truthy (strip (rename_entry fm))); simpl in H; [|tauto].
    destruct H as [H|[H|[]]]; [discriminate H | tauto].
Qed.

Lemma x_in_optional_args :
  strip (rate_entry fm) = "-x" \/ strip (proxy_entry fm) = "-x"
  \/ strip (rename_entry fm) = "-x" ->
  In "-x" (subs_args fm ++ net_args fm ++ rename_args fm).
Proof.
  unfold net_args, rename_args. intros [H|[H|H]]; rewrite H;
    apply in_or_app; right; apply in_or_app.
  - left. apply in_or_app. left. simpl. tauto.
  - left. apply in_or_app. right. simpl. tauto.
  - right. simpl. tauto.
Qed.
End BuilderMore.

Section BuilderExtras.
Import PyStr Eff Builder.

Variable env : ui_env.
Variable fm : form.

Lemma kept_urls_nonempty_lines dir u :
  In u (kept_urls env dir 0 (url_lines fm)) -> In u (nonempty_lines fm).
Proof.
  intros H. apply kept_urls_in in H as [Hin Hne].
  unfold nonempty_lines. apply filter_In. split; [exact Hin|].
  now rewrite Hne.
Qed.

(** The jobs a press of the button starts, from the state it leaves. *)
Lemma threads_started job :
  In job (threads (snd (start_download env fm idle))) ->
  exists dir url,
    folder env fm = inr dir
    /\ In url (nonempty_lines fm)
    /\ job = (job_args env fm dir url, None).
Proof.
  rewrite start_download_spec.
  destruct (folder env fm) as [e|dir]; simpl; [tauto|]. intros H.
  apply in_map_iff in H as (url & <- & Hk).
  exists dir, url. conjs; try reflexivity.
  now apply (kept_urls_nonempty_lines dir).
Qed.

(** X12.  A URL box that is empty or holds white space only gives
    nothing to do: the press starts no job and puts no line on the
    queue.  It returns when the folder is determined; it raises, with
    the state as it was, when the folder entry is blank and
    [os.getcwd()] raises. *)
Theorem blank_box_builds_nothing w :
  all_space (url_text fm) = true ->
  snd (start_download env fm w) = w
  /\ (forall dir, folder env fm = inr dir ->
      fst (start_download env fm w) = Returns tt)
  /\ (forall e, folder env fm = inl e ->
      fst (start_download env fm w) = Raises e).
Proof.
  intros H. unfold start_download.
  rewrite (strip_all_space _ H). simpl.
  destruct (folder env fm) as [e|dir]; conjs; try reflexivity;
    try (intros ? [= <-]; reflexivity); intros ? [=].
Qed.

(** X13.  When the folder is determined, the press returns and every
    line of the URL box that is not empty gives either one job or one
    [Skipped] line on the queue, never both and never neither: the jobs
    started and the lines queued number the lines that are not empty.
    When the folder entry is blank and [os.getcwd()] raises, the press
    raises that exception before any line is looked at: no job, no
    line. *)
Theorem every_line_job_or_skipped w :
  (forall dir, folder env fm = inr dir ->
     fst (start_download env fm w) = Returns tt
     /\ length (threads (snd (start_download env fm w)))
        + length (q (snd (start_download env fm w)))
        = length (threads w) + length (q w) + length (nonempty_lines fm))
  /\ (forall e, folder env fm = inl e ->
      start_download env fm w = (Raises e, w)).
Proof.
  rewrite start_download_spec. split.
  - intros dir ->. simpl. split; [reflexivity|].
    rewrite !length_app, !length_map.
    pose proof (kept_refused_count env dir (url_lines fm) 0) as H.
    unfold nonempty_lines. lia.
  - intros e ->. reflexivity.
Qed.

(** X14.  When the folder is determined and the overwrite gate refuses
    nothing, a press builds one argument list for each line that is not
    empty, in the order of the lines, and puts nothing on the queue. *)
Theorem one_job_per_nonempty_line dir w :
  folder env fm = inr dir ->
  (forall i url, refused env dir i url = false) ->
  jobs_built env fm = map (job_args env fm dir) (nonempty_lines fm)
  /\ q (snd (start_download env fm w)) = q w.
Proof.
  intros Hd Hr. split.
  - rewrite jobs_built_spec. unfold jobs_for_folder. rewrite Hd.
    now rewrite (kept_urls_none_refused env dir _ 0 Hr).
  - rewrite start_download_spec, Hd. simpl.
    replace (refused_urls env dir 0 (url_lines fm)) with (@nil string);
      [now rewrite app_nil_r|].
    generalize 0. induction (url_lines fm) as [|u rest IH]; intros i;
      simpl; [reflexivity|].
    now rewrite Hr, andb_false_r.
Qed.

(** X25.  Only a line that is empty is skipped.  A line between two
    URLs that is not empty, be it of blanks only, gets a job of its own,
    with its text as the URL: when the folder is determined and the gate
    refuses nothing, three jobs are built. *)
Theorem blank_line_gets_a_job dir u1 mid u2 tail :
  is_url u1 = true -> is_url u2 = true ->
  truthy mid = true -> no_linebreak mid = true ->
  all_space tail = true ->
  url_text fm = (u1 ++ (nl ++ mid ++ nl) ++ u2 ++ tail)%string ->
  folder env fm = inr dir ->
  (forall i url, refused env dir i url = false) ->
  jobs_built env fm
  = [job_args env fm dir u1; job_args env fm dir mid;
     job_args env fm dir u2].
Proof.
  intros H1 H2 Hm Hb Ht Htxt Hd Hr.
  rewrite jobs_built_spec. unfold jobs_for_folder, url_lines.
  rewrite Hd, Htxt.
  pose proof (strip_between_urls EmptyString u1 (nl ++ mid ++ nl) u2 tail
                eq_refl Ht H1 H2) as Hs.
  change (strip (u1 ++ (nl ++ mid ++ nl) ++ u2 ++ tail)
          = (u1 ++ (nl ++ mid ++ nl) ++ u2)%string) in Hs.
  rewrite Hs.
  rewrite (splitlines_blank_between u1 mid u2 H1 H2 Hm Hb).
  assert (N : forall u, truthy u = true -> is_empty u = false).
  { intros u Hu. unfold truthy in Hu. now apply negb_true_iff in Hu. }
  unfold is_url in H1, H2.
  apply andb_true_iff in H1 as [E1 _]. apply andb_true_iff in H2 as [E2 _].
  simpl. rewrite (N u1 E1), (N mid Hm), (N u2 E2), !Hr. reflexivity.
Qed.

(** X15.  Every argument list built starts with the executable, the
    URL line, [-P] and the folder; the URL is a line of the box that is
    not empty, and it holds no line boundary. *)
Theorem built_job_shape args :
  In args (jobs_built env fm) ->
  exists dir url rest,
    folder env fm = inr dir
    /\ args = yt_dlp_exe env :: url :: "-P" :: dir :: rest
    /\ In url (url_lines fm)
    /\ is_empty url = false
    /\ no_linebreak url = true.
Proof.
  intros H. apply jobs_built_in in H as (dir & url & Hd & Hk & ->).
  apply kept_urls_in in Hk as [Hin Hne].
  destruct (job_args_head env fm dir url) as (rest & E).
  exists dir, url, rest. conjs; try assumption.
  now apply (splitlines_no_linebreak (strip (url_text fm))).
Qed.

(** X16.  In video mode, a quality made of a number and the letter [p]
    gives the format selector that bounds the height by that number:
    [-f] followed by [bestvideo[height<=N]+bestaudio/best]. *)
Theorem video_quality_bounds_height n args :
  audio_var fm = false ->
  all_digits n = true -> quality_var fm = (n ++ "p")%string ->
  In args (jobs_built env fm) ->
  nth 4 args EmptyString = "-f"
  /\ nth 5 args EmptyString
     = ("bestvideo[height<=" ++ n ++ "]+bestaudio/best")%string.
Proof.
  intros Ha Hn Hq H.
  apply jobs_built_in in H as (dir & url & _ & _ & ->).
  rewrite (job_args_video env fm dir url Ha), Hq.
  rewrite (digits_p_not_Best n Hn), (rstrip_char_digits_p n Hn).
  split; reflexivity.
Qed.

(** X17.  In video mode every argument list is the executable, the
    URL line, [-P], the folder, then [-f] and a format selector, then
    the optional arguments; the builder adds no [-x]: the list holds
    [-x] exactly when one of the texts copied into it (the executable
    path, the URL line of the job, the folder, the rate, the proxy, the
    template) is itself [-x]. *)
Theorem video_mode_adds_no_audio_flags args :
  audio_var fm = false ->
  In args (jobs_built env fm) ->
  exists dir url selector,
    folder env fm = inr dir
    /\ In url (url_lines fm)
    /\ args = [yt_dlp_exe env; url; "-P"; dir; "-f"; selector]
              ++ subs_args fm ++ net_args fm ++ rename_args fm
    /\ (selector = "bv*+ba/best"
        \/ exists res,
             selector
             = ("bestvideo[height<=" ++ res ++ "]+bestaudio/best")%string)
    /\ (In "-x" args <-> In "-x" (copied_texts env fm dir url)).
Proof.
  intros Ha H. apply jobs_built_in in H as (dir & url & Hd & Hk & ->).
  apply kept_urls_in in Hk as [Hin _].
  rewrite (job_args_video env fm dir url Ha).
  eexists dir, url, _. conjs; try eassumption; try reflexivity.
  - destruct (negb (String.eqb (quality_var fm) "Best"));
      [right; eexists; reflexivity | now left].
  - unfold copied_texts. split.
    + intros H. apply in_app_or in H as [H|H].
      * simpl in H.
        destruct H as [H|[H|[H|[H|[H|[H|[]]]]]]];
          try discriminate H; simpl; try tauto.
        destruct (negb (String.eqb (quality_var fm) "Best"));
          discriminate H.
      * apply optional_args_x in H. simpl. tauto.
    + intros H. simpl in H.
      destruct H as [H|[H|[H|[H|[H|[H|[]]]]]]].
      * rewrite H. now left.
      * rewrite H. right. now left.
      * rewrite H. do 3 right. now left.
      * apply in_or_app. right. apply x_in_optional_args. tauto.
      * apply in_or_app. right. apply x_in_optional_args. tauto.
      * apply in_or_app. right. apply x_in_optional_args. tauto.
Qed.

(** X18.  No job started by the Download button has a post-hook: each
    thread runs [_run_yt_dlp(args)] with [post_hook=None], and running it
    launches no shell command, whatever the outside world does. *)
Theorem download_never_uses_post_hook job os rw :
  In job (threads (snd (start_download env fm idle))) ->
  snd job = None
  /\ Runner.hooks_started
       (snd (Runner._run_yt_dlp os (fst job) (snd job) rw))
     = Runner.hooks_started rw.
Proof.
  intros H. apply threads_started in H as (dir & url & _ & _ & ->). simpl.
  split; [reflexivity|].
  destruct (Runner.run_body os (job_args env fm dir url) rw) as [r w1] eqn:Eb.
  rewrite (run_unfold os _ None rw r w1 Eb). simpl.
  destruct (run_body_handles os (job_args env fm dir url) rw) as [Hh _].
  rewrite Eb in Hh. simpl in Hh.
  destruct r as [[]|e];
    rewrite (proj1 (run_cleanup_effects os _ None _)); simpl;
    now rewrite app_nil_r.
Qed.

(** X19.  The notification of a job started by the Download button
    names the URL of the job: the element of index 1 of every argument
    list built is its URL line, so the runner calls [notify] with the
    title [Download Complete] and that line, on every path. *)
Theorem notification_names_url_of_built_job job os rw :
  In job (threads (snd (start_download env fm idle))) ->
  exists url,
    In url (nonempty_lines fm)
    /\ Runner.notify_calls
         (snd (Runner._run_yt_dlp os (fst job) (snd job) rw))
       = Runner.notify_calls rw ++ [("Download Complete", url)].
Proof.
  intros H. apply threads_started in H as (dir & url & _ & Hu & ->). simpl.
  exists url. split; [exact Hu|].
  destruct (run_final os (job_args env fm dir url) None rw)
    as (r & w1 & w' & _ & -> & _ & _ & _ & Hn).
  simpl. rewrite Hn.
  destruct (job_args_head env fm dir url) as (rest & ->). reflexivity.
Qed.
End BuilderExtras.

(* ===================================================================== *)
(** * The clipboard watcher, the start-up, and the pieces together *)
(* ===================================================================== *)

Section ClipboardExtras.
Import PyStr Clipboard.

Lemma take_stale clip w : stale clip w -> take clip w = w.
Proof.
  unfold take. intros [H| <-].
  - now rewrite H.
  - now rewrite String.eqb_refl, andb_false_r.
Qed.

Lemma poll_makes_stale clip w : stale clip (poll_clipboard (inr clip) w).
Proof.
  unfold stale, poll_clipboard, take.
  destruct (startswith "http" clip) eqn:Hh; [|now left].
  destruct (String.eqb clip (clipboard_last w)) eqn:He; simpl.
  - right. apply String.eqb_eq in He. now symmetry.
  - now right.
Qed.

Lemma step_stale clip w ev :
  stale clip w ->
  match ev with Poll (inr c) => c = clip | _ => True end ->
  stale clip (step w ev)
  /\ url_box (step w ev)
     = match ev with Edit t => t | Poll _ => url_box w end
  /\ clipboard_last (step w ev) = clipboard_last w.
Proof.
  intros Hs Hev. destruct ev as [[e|c]|t]; simpl.
  - now conjs.
  - subst c. unfold poll_clipboard. rewrite (take_stale clip w Hs).
    now conjs.
  - now conjs.
Qed.

(** X21.  A text is pasted once.  After a poll that saw [clip], further
    polls that see the same clipboard, or cannot read it, leave the URL
    box to the user: it holds what the user typed last, or what it held
    after the first poll; and [clipboard_last] does not move. *)
Theorem clipboard_pasted_once clip evs w :
  same_clipboard clip evs ->
  url_box (run evs (poll_clipboard (inr clip) w))
  = last_edit evs (url_box (poll_clipboard (inr clip) w))
  /\ clipboard_last (run evs (poll_clipboard (inr clip) w))
     = clipboard_last (poll_clipboard (inr clip) w).
Proof.
  intros H. pose proof (poll_makes_stale clip w) as Hs.
  revert H Hs. generalize (poll_clipboard (inr clip) w) as w1.
  unfold run, last_edit.
  induction evs as [|ev evs IH]; intros w1 H Hs; simpl; [now split|].
  inversion H as [|? ? Hev Hrest]; subst.
  destruct (step_stale clip w1 ev Hs Hev) as (Hs' & Hb & Hl).
  destruct (IH (step w1 ev) Hrest Hs') as [IHb IHl].
  rewrite IHb, IHl, Hb, Hl. split; [|reflexivity].
  now destruct ev.
Qed.

End ClipboardExtras.

Section StartupExtras.
Import PyStr Startup.

(** Once a file stands at the path nothing is done any more. *)
Lemma existing_exe_never_downloaded rs : forall w,
  exe_exists w = true -> starts rs w = w.
Proof.
  unfold starts. induction rs as [|r rs IH]; intros w H; simpl;
    [reflexivity|].
  unfold ensure_yt_dlp at 2. rewrite H. now apply IH.
Qed.

(** X24.  [ensure_yt_dlp] tests the existence of the file only.  When a
    download fails and leaves a part of the file on the disk, the error
    is shown once, and no later start downloads again or shows an error:
    the incomplete executable stays. *)
Theorem partial_download_never_retried e rs w :
  exe_exists w = false ->
  error_boxes (ensure_yt_dlp (Failed e true) w)
  = error_boxes w ++ [("Download Failed", exc_str e)]
  /\ exe_complete (ensure_yt_dlp (Failed e true) w) = false
  /\ starts rs (ensure_yt_dlp (Failed e true) w)
     = ensure_yt_dlp (Failed e true) w.
Proof.
  intros H. conjs.
  - unfold ensure_yt_dlp. now rewrite H.
  - unfold ensure_yt_dlp. now rewrite H.
  - apply existing_exe_never_downloaded.
    unfold ensure_yt_dlp. now rewrite H.
Qed.
End StartupExtras.

Section DeskExtras.
Import PyStr Eff Desk.

(** X9.  What is shown is what is logged.  After a job whose child
    writes [lines] and exits, with the log writable and the queue empty
    before, one pump adds to the log view exactly the text the runner
    appended to the activity log: the lines, in order. *)
Theorem clean_job_shown_as_logged env args post_hook lines rw g :
  Runner.writes_then_exits env args lines -> Runner.log_writable env ->
  Runner.q rw = [] ->
  Pump.text
    (Pump.output_box
       (Pump.pump_queue
          (after_runner (snd (Runner._run_yt_dlp env args post_hook rw)) g)))
  = (Pump.text (Pump.output_box g) ++ join lines)%string
  /\ Runner.log_text (snd (Runner._run_yt_dlp env args post_hook rw))
     = (Runner.log_text rw ++ join lines)%string.
Proof.
  intros Hc Hl Hq.
  destruct (run_body_clean env args lines rw Hc Hl) as (w1 & Eb & Hq1 & Hl1).
  destruct (run_queue_log env args post_hook rw _ _ Eb) as [Hqf Hlf].
  split.
  - unfold Pump.pump_queue, Pump.after, after_runner. simpl.
    rewrite drain_text, Hqf, Hq1, Hq. reflexivity.
  - now rewrite Hlf.
Qed.

(** A URL and the line feed of the box strip and split to the URL. *)
Lemma url_line_alone clip :
  is_url clip = true -> splitlines (strip (clip ++ nl)) = [clip].
Proof.
  intros H. unfold strip.
  rewrite (lstrip_url clip nl H).
  rewrite (rstrip_app_space clip nl eq_refl).
  pose proof H as H'. unfold is_url in H'.
  apply andb_true_iff in H' as [Hne Hns].
  rewrite (no_space_rstrip clip Hns).
  unfold splitlines. rewrite <- (append_empty_r clip) at 1.
  rewrite (splitlines_from_no_space clip EmptyString EmptyString Hns).
  simpl. unfold truthy in Hne. apply negb_true_iff in Hne. now rewrite Hne.
Qed.

(** X23.  From the clipboard to the job.  When a poll sees a URL that
    starts with [http] and is not the text pasted last, the URL box
    holds that URL and nothing of what it held before, and a press of
    Download, when the folder is determined, then builds the one job of
    that URL, or none when the overwrite gate refuses it. *)
Theorem clipboard_url_becomes_the_job env fm clip c dir :
  is_url clip = true -> startswith "http" clip = true ->
  String.eqb clip (Clipboard.clipboard_last c) = false ->
  Builder.folder env fm = inr dir ->
  Clipboard.url_box (Clipboard.poll_clipboard (inr clip) c) = clip
  /\ Builder.jobs_built env
       (form_of (Clipboard.poll_clipboard (inr clip) c) fm)
     = if Builder.refused env dir 0 clip
       then []
       else [Builder.job_args env
               (form_of (Clipboard.poll_clipboard (inr clip) c) fm)
               dir clip].
Proof.
  intros Hu Hh Hn Hd.
  assert (Hb : Clipboard.url_box (Clipboard.poll_clipboard (inr clip) c)
               = clip).
  { unfold Clipboard.poll_clipboard, Clipboard.take. now rewrite Hh, Hn. }
  split; [exact Hb|].
  rewrite jobs_built_spec. unfold Builder.jobs_for_folder.
  assert (Hd' : Builder.folder env
                  (form_of (Clipboard.poll_clipboard (inr clip) c) fm)
                = inr dir) by exact Hd.
  rewrite Hd'.
  assert (Hl : Builder.url_lines
                 (form_of (Clipboard.poll_clipboard (inr clip) c) fm)
               = [clip]).
  { unfold Builder.url_lines, form_of. cbn [Builder.url_text].
    unfold Clipboard.url_text_get. rewrite Hb. now apply url_line_alone. }
  rewrite Hl. simpl.
  assert (Hne : is_empty clip = false).
  { unfold is_url, truthy in Hu. apply andb_true_iff in Hu as [Hu _].
    now apply negb_true_iff in Hu. }
  rewrite Hne. simpl.
  now destruct (Builder.refused env dir 0 clip).
Qed.

(** X20.  The folder picked is the destination.  After [pick_folder]
    returned a path that is not blank, every job built passes that path,
    stripped, after [-P]; a cancelled dialog changes no job. *)
Theorem picked_folder_is_destination env fm path args :
  truthy (strip path) = true ->
  In args (Builder.jobs_built env (with_folder path fm)) ->
  nth 2 args EmptyString = "-P"
  /\ nth 3 args EmptyString = strip path
  /\ Builder.jobs_built env (with_folder EmptyString fm)
     = Builder.jobs_built env fm.
Proof.
  intros Hp H.
  assert (Hpath : truthy path = true) by (now destruct path).
  apply jobs_built_in in H as (dir & url & Hd & _ & ->).
  assert (Hdir : dir = strip path).
  { revert Hd. unfold Builder.folder, with_folder, Startup.pick_folder.
    simpl. rewrite Hpath, Hp. now intros [= <-]. }
  destruct (job_args_head env (with_folder path fm) dir url) as (rest & ->).
  conjs.
  - reflexivity.
  - exact Hdir.
  - destruct fm. reflexivity.
Qed.
End DeskExtras.

(* ===================================================================== *)
(** * The further statements on the sample runs *)
(* ===================================================================== *)

Section OnMoreSamples.
Import PyStr Eff Samples MoreSamples.

Lemma read_error_keeps_every_line_witness :
  Runner.q (snd (Runner._run_yt_dlp env_garbled sample_args None fresh_world))
  = sample_lines
    ++ [Runner.error_line (Exc "'charmap' codec can't decode byte 0x81")].
Proof.
  apply (proj1 (read_error_keeps_every_line env_garbled sample_args None
                  fresh_world garbled_child _ eq_refl eq_refl
                  (conj eq_refl (conj (fun _ => eq_refl) eq_refl)))).
Defined.

Lemma log_write_failure_stops_reading_witness :
  Runner.first_write_failure env_disk_full 1
    (Exc "[Errno 28] No space left on device")
  /\ Runner.log_text
       (snd (Runner._run_yt_dlp env_disk_full sample_args None fresh_world))
     = ("[youtube] Extracting URL" ++ nl ++ "[dow")%string.
Proof.
  assert (H : Runner.first_write_failure env_disk_full 1
                (Exc "[Errno 28] No space left on device")).
  { split; [|reflexivity].
    intros j Hj. destruct j as [|j]; [reflexivity | lia]. }
  split; [exact H|].
  exact (proj2 (log_write_failure_stops_reading env_disk_full sample_args None
                  fresh_world quiet_child 1 _ eq_refl eq_refl eq_refl H
                  (le_n 2))).
Defined.

Lemma spawn_failure_reports_and_leaves_log_witness :
  Runner.log_text
    (snd (Runner._run_yt_dlp env_no_exe sample_args None fresh_world))
  = EmptyString.
Proof.
  apply (proj2 (spawn_failure_reports_and_leaves_log env_no_exe sample_args
                  None fresh_world _ eq_refl eq_refl eq_refl)).
Defined.

Lemma log_open_failure_skips_child_witness :
  Runner.q (snd (Runner._run_yt_dlp env_no_log sample_args None fresh_world))
  = [Runner.error_line (Exc "[Errno 13] Permission denied")].
Proof.
  apply (proj1 (proj2 (log_open_failure_skips_child env_no_log sample_args
                         None fresh_world _ (fun _ => inr quiet_child)
                         eq_refl))).
Defined.

Lemma short_args_notify_finished_witness :
  length bare_args <= 1
  /\ Runner.notify_calls
       (snd (Runner._run_yt_dlp env_clean bare_args None fresh_world))
     = [("Download Complete", "Finished")].
Proof.
  assert (H : length bare_args <= 1) by (simpl; lia).
  split; [exact H|].
  apply (proj2 (short_args_notify_finished env_clean bare_args None
                  fresh_world H)).
Defined.

Lemma pump_shows_queue_in_order_witness :
  Pump.q busy_gui <> []
  /\ Pump.state (Pump.output_box (Pump.pump_queue busy_gui)) = Pump.disabled.
Proof.
  assert (H : Pump.q busy_gui <> []) by discriminate.
  split; [exact H|].
  apply (proj2 (proj2 (pump_shows_queue_in_order busy_gui)) H).
Defined.

Lemma clean_job_shown_as_logged_witness :
  Pump.text
    (Pump.output_box
       (Pump.pump_queue
          (Desk.after_runner
             (snd (Runner._run_yt_dlp env_clean sample_args None fresh_world))
             quiet_gui)))
  = ("[download] 100%" ++ join sample_lines)%string.
Proof.
  apply (proj1 (clean_job_shown_as_logged env_clean sample_args None
                  sample_lines fresh_world quiet_gui
                  (ex_intro _ quiet_child
                     (conj eq_refl (conj eq_refl (conj eq_refl eq_refl))))
                  (conj eq_refl (conj (fun _ => eq_refl) eq_refl))
                  eq_refl)).
Defined.


Lemma non_object_prefs_break_startup_witness :
  Prefs.load_fails env_list_prefs = false
  /\ Prefs.prefs env_list_prefs = Prefs.JArray [].
Proof.
  destruct (non_object_prefs_break_startup env_list_prefs "[]"
              (Prefs.JArray []) eq_refl eq_refl eq_refl) as (H1 & H2 & _).
  split; [exact H1 | exact H2].
Defined.

Lemma blank_box_builds_nothing_witness :
  all_space (Builder.url_text form_blank) = true
  /\ snd (Builder.start_download env_no_cwd form_blank Builder.idle)
     = Builder.idle
  /\ fst (Builder.start_download env_no_cwd form_blank Builder.idle)
     = Raises (Exc "[Errno 2] No such file or directory").
Proof.
  split; [reflexivity|].
  destruct (blank_box_builds_nothing env_no_cwd form_blank Builder.idle
              eq_refl) as (H1 & _ & H3).
  split; [exact H1 | exact (H3 _ eq_refl)].
Defined.

Lemma every_line_job_or_skipped_witness :
  Builder.folder env_no_cwd form_720p
  = inl (Exc "[Errno 2] No such file or directory")
  /\ Builder.start_download env_no_cwd form_720p Builder.idle
     = (Raises (Exc "[Errno 2] No such file or directory"), Builder.idle).
Proof.
  split; [reflexivity|].
  exact (proj2 (every_line_job_or_skipped env_no_cwd form_720p Builder.idle)
           _ eq_refl).
Defined.

Lemma post_hook_on_every_path_witness :
  Runner.hooks_started
    (snd (Runner._run_yt_dlp env_no_exe sample_args (Some sample_hook)
            fresh_world))
  = [sample_hook].
Proof.
  refine (proj1 (proj2 (post_hook_on_every_path env_no_exe sample_args
                          (Some sample_hook) fresh_world))
            sample_hook eq_refl _ eq_refl).
  discriminate.
Defined.

(** C1 as stated fails: the child writes its two lines and exits, but
    the disk is full when the second line is written to the log; the
    queue gets the two lines and an error line, and the log gets a part
    of their text only. *)
Lemma log_failure_breaks_forwarding_counterexample :
  Runner.writes_then_exits env_disk_full sample_args sample_lines
  /\ Runner.q
       (snd (Runner._run_yt_dlp env_disk_full sample_args None fresh_world))
     = sample_lines
       ++ [Runner.error_line (Exc "[Errno 28] No space left on device")]
  /\ Runner.q
       (snd (Runner._run_yt_dlp env_disk_full sample_args None fresh_world))
     <> Runner.q fresh_world ++ sample_lines
  /\ Runner.log_text
       (snd (Runner._run_yt_dlp env_disk_full sample_args None fresh_world))
     <> (Runner.log_text fresh_world ++ join sample_lines)%string.
Proof.
  split.
  { exists quiet_child. repeat split; reflexivity. }
  split; [reflexivity|].
  split; vm_compute; discriminate.
Qed.

Lemma one_job_per_nonempty_line_witness :
  (forall i url,
      Builder.refused env_probe_fails "/home/u/Videos" i url = false)
  /\ Builder.jobs_built env_probe_fails form_two_urls
     = map (Builder.job_args env_probe_fails form_two_urls "/home/u/Videos")
         [url_a; url_b].
Proof.
  assert (H : forall i url,
             Builder.refused env_probe_fails "/home/u/Videos" i url = false)
    by (intros i url; reflexivity).
  split; [exact H|].
  apply (proj1 (one_job_per_nonempty_line env_probe_fails form_two_urls
                  "/home/u/Videos" Builder.idle eq_refl H)).
Defined.

Lemma blank_line_gets_a_job_witness :
  length (Builder.jobs_built env_fresh form_blank_between) = 3
  /\ nth 1 (nth 1 (Builder.jobs_built env_fresh form_blank_between) [])
        EmptyString
     = " ".
Proof.
  assert (E := blank_line_gets_a_job env_fresh form_blank_between "/home/u"
                 url_a " " url_b nl eq_refl eq_refl eq_refl eq_refl
                 eq_refl eq_refl eq_refl (fun _ _ => eq_refl)).
  rewrite E. split; reflexivity.
Defined.

Lemma built_job_shape_witness :
  In (Builder.job_args env_fresh form_720p "/home/u" url_a)
     (Builder.jobs_built env_fresh form_720p)
  /\ exists url rest,
       Builder.job_args env_fresh form_720p "/home/u" url_a
       = "yt-dlp.exe" :: url :: "-P" :: "/home/u" :: rest.
Proof.
  assert (H : In (Builder.job_args env_fresh form_720p "/home/u" url_a)
                (Builder.jobs_built env_fresh form_720p))
    by (left; reflexivity).
  split; [exact H|].
  destruct (built_job_shape env_fresh form_720p _ H)
    as (dir & url & rest & Hd & E & _).
  injection Hd as <-. exists url, rest. exact E.
Defined.

Lemma video_quality_bounds_height_witness :
  all_digits "720" = true
  /\ nth 5 (Builder.job_args env_fresh form_720p "/home/u" url_a) EmptyString
     = "bestvideo[height<=720]+bestaudio/best".
Proof.
  split; [reflexivity|].
  apply (proj2 (video_quality_bounds_height env_fresh form_720p "720"
                  _ eq_refl eq_refl eq_refl (or_introl eq_refl))).
Defined.

Lemma video_mode_adds_no_audio_flags_witness :
  Builder.audio_var form_720p = false
  /\ nth 4 (Builder.job_args env_fresh form_720p "/home/u" url_a) EmptyString = "-f".
Proof.
  split; [reflexivity|].
  destruct (video_mode_adds_no_audio_flags env_fresh form_720p
              (Builder.job_args env_fresh form_720p "/home/u" url_a) eq_refl
              (or_introl eq_refl)) as (dir & url & sel & _ & _ & H & _).
  exact (f_equal (fun l => nth 4 l EmptyString) H).
Defined.

Lemma download_never_uses_post_hook_witness :
  Runner.hooks_started
    (snd (Runner._run_yt_dlp env_clean
            (Builder.job_args env_fresh form_720p "/home/u" url_a) None fresh_world))
  = [].
Proof.
  apply (proj2 (download_never_uses_post_hook env_fresh form_720p
                  (Builder.job_args env_fresh form_720p "/home/u" url_a, None)
                  env_clean fresh_world (or_introl eq_refl))).
Defined.

Lemma notification_names_url_of_built_job_witness :
  exists url,
    In url (Builder.nonempty_lines form_720p)
    /\ Runner.notify_calls
         (snd (Runner._run_yt_dlp env_no_exe
                 (Builder.job_args env_fresh form_720p "/home/u" url_a) None
                 fresh_world))
       = [("Download Complete", url)].
Proof.
  apply (notification_names_url_of_built_job env_fresh form_720p
           (Builder.job_args env_fresh form_720p "/home/u" url_a, None)
           env_no_exe fresh_world (or_introl eq_refl)).
Defined.

Lemma picked_folder_is_destination_witness :
  truthy (strip " /srv/media ") = true
  /\ nth 3 (Builder.job_args env_fresh
              (Desk.with_folder " /srv/media " form_720p) "/srv/media" url_a) EmptyString
     = "/srv/media".
Proof.
  split; [reflexivity|].
  apply (proj1 (proj2 (picked_folder_is_destination env_fresh form_720p
                         " /srv/media " _ eq_refl (or_introl eq_refl)))).
Defined.

Lemma clipboard_pasted_once_witness :
  Clipboard.same_clipboard clip_link later_events
  /\ Clipboard.url_box
       (Clipboard.run later_events
          (Clipboard.poll_clipboard (inr clip_link) Clipboard.start))
     = "https://typed.example/4".
Proof.
  assert (H : Clipboard.same_clipboard clip_link later_events).
  { repeat constructor. }
  split; [exact H|].
  apply (proj1 (clipboard_pasted_once clip_link later_events
                  Clipboard.start H)).
Defined.

Lemma clipboard_url_becomes_the_job_witness :
  is_url clip_link = true
  /\ Builder.jobs_built env_fresh
       (Desk.form_of (Clipboard.poll_clipboard (inr clip_link) Clipboard.start)
          form_720p)
     = [Builder.job_args env_fresh
          (Desk.form_of
             (Clipboard.poll_clipboard (inr clip_link) Clipboard.start)
             form_720p) "/home/u" clip_link].
Proof.
  split; [reflexivity|].
  apply (proj2 (clipboard_url_becomes_the_job env_fresh form_720p clip_link
                  Clipboard.start "/home/u" eq_refl eq_refl eq_refl
                  eq_refl)).
Defined.

Lemma partial_download_never_retried_witness :
  Startup.exe_exists no_exe = false
  /\ Startup.starts [Startup.Retrieved; Startup.Retrieved]
       (Startup.ensure_yt_dlp (Startup.Failed (Exc "retrieval incomplete") true)
          no_exe)
     = {| Startup.exe_exists := true; Startup.exe_complete := false;
          Startup.error_boxes :=
            [("Download Failed", "retrieval incomplete")] |}.
Proof.
  split; [reflexivity|].
  apply (proj2 (proj2 (partial_download_never_retried
                         (Exc "retrieval incomplete")
                         [Startup.Retrieved; Startup.Retrieved]
                         no_exe eq_refl))).
Defined.
End OnMoreSamples.
